(** * MedConnect: order, payment, review, document and consultation rules

    A shallow embedding of the service layer under [lib/mongodb] (models and
    services) and of the consultation booking route, followed by the
    properties of the lifecycle rules.

    Conventions of the embedding.
    - An [ObjectId] is a string, a [Date] is its epoch time in milliseconds.
    - A JavaScript [number] is an exact integer ([Z]): the rules below only
      add, subtract and compare amounts.
    - The entity store is explicit state; a request is a function from the
      store to an outcome and the store it leaves behind.  A thrown [Error]
      keeps whatever was written before the throw.
    - The clock reading, the random identifier material and the file system
      are the request's environment [Env].
    - Schema validation is embedded for the numeric and date validators of the
      fields kept in the records ([min], [max] and custom [validator]s);
      string setters and string validators are outside the model, as are the
      store's unique indexes. *)

From Stdlib Require Import ZArith Bool Lia.
From stdpp Require Import base option gmap strings list fin_maps.

Local Open Scope string_scope.
Local Open Scope Z_scope.

Abbreviation ObjectId := string (only parsing).
Abbreviation Date := Z (only parsing).

(** ** JavaScript truthiness on the values the rules test *)

Definition truthy_num (n : Z) : bool := negb (n =? 0).

Definition truthy_opt_num (o : option Z) : bool :=
  match o with Some n => truthy_num n | None => false end.

Definition truthy_str (s : string) : bool := negb (String.eqb s "").

Definition truthy_opt_str (o : option string) : bool :=
  match o with Some s => truthy_str s | None => false end.

Definition is_set {A : Type} (o : option A) : bool :=
  match o with Some _ => true | None => false end.

(** [a || b] on an optional number with a numeric fallback. *)
Definition num_or (o : option Z) (d : Z) : Z :=
  match o with
  | Some n => if truthy_num n then n else d
  | None => d
  end.

Definition newline : string := String (Ascii.ascii_of_nat 10) EmptyString.

(** ** Errors

    One constructor per message thrown (or per error response returned) in
    the embedded code. *)

Inductive Error : Type :=
| OrderNotFound                 (* 'Order not found' *)
| PaymentNotFound               (* 'Payment not found' *)
| ReviewNotFound                (* 'Review not found' *)
| ConsultationNotFound          (* 'Consultation not found' *)
| DocumentNotFoundOrInactive    (* 'Document not found or inactive' *)
| InvalidOrInactiveReviewer     (* 'Invalid or inactive reviewer' *)
| OrderCannotBeAssigned         (* 'Order cannot be assigned at this time' *)
| CannotCancelCompletedOrder    (* 'Cannot cancel a completed order' *)
| PaymentAmountNotPositive      (* 'Payment amount must be greater than 0' *)
| PaymentAlreadyCompleted       (* 'Payment is already completed' *)
| PaymentAlreadyFailed          (* 'Payment is already marked as failed' *)
| OnlyCompletedRefundable       (* 'Only completed payments can be refunded' *)
| PaymentAlreadyRefunded        (* 'Payment is already refunded' *)
| RefundExceedsAmount           (* 'Refund amount cannot exceed original payment amount' *)
| OnlyPendingCancellable        (* 'Can only cancel pending payments' *)
| OnlyFailedRetriable           (* 'Only failed payments can be retried' *)
| ReviewAlreadyCompleted        (* 'Review is already completed' *)
| UnauthorizedDownload          (* 'Unauthorized to download this document' *)
| FileNotFoundOnServer          (* 'File not found on server' *)
| InvalidParticipants           (* 'Invalid participants' *)
| UserIsNotReviewer             (* 'User is not a reviewer' *)
| ScheduledDateNotFuture        (* 'Scheduled date must be in the future' *)
| ScheduledDateInPast           (* 'Scheduled date cannot be in the past' *)
| ConsultationCannotBeStarted   (* 'Consultation cannot be started' *)
| ConsultationNotInProgress     (* 'Consultation is not in progress' *)
| ConsultationCannotBeCancelled (* 'Consultation cannot be cancelled' *)
| OnlyScheduledReschedulable    (* 'Only scheduled consultations can be rescheduled' *)
| NewDateNotFuture              (* 'New scheduled date must be in the future' *)
| Unauthorized                  (* route: 401 'Unauthorized' *)
| TimeSlotNotAvailable          (* route: 409 'Time slot not available' *)
| FileSizeExceeded              (* 'File size cannot exceed 50MB' *)
| ValidationError               (* a schema validator rejected the document *)
| DuplicateKey                  (* insert under an _id already in use *)
| TypeError.                    (* property read on a null populated reference *)

(** The error names of the specification's error table. *)
Inductive ErrorKind : Type :=
| NotFound | InvalidState | InvalidReviewer | InvalidAmount | InvalidDate
| InvalidFile | SlotTaken | Forbidden | AlreadyCompleted | AlreadyComplete
| Unauthenticated | Internal.

Definition kind_of (e : Error) : ErrorKind :=
  match e with
  | OrderNotFound | PaymentNotFound | ReviewNotFound | ConsultationNotFound
  | DocumentNotFoundOrInactive | FileNotFoundOnServer | InvalidParticipants => NotFound
  | InvalidOrInactiveReviewer | UserIsNotReviewer => InvalidReviewer
  | OrderCannotBeAssigned | CannotCancelCompletedOrder | PaymentAlreadyFailed
  | OnlyCompletedRefundable | PaymentAlreadyRefunded | OnlyPendingCancellable
  | OnlyFailedRetriable | ConsultationCannotBeStarted | ConsultationNotInProgress
  | ConsultationCannotBeCancelled | OnlyScheduledReschedulable => InvalidState
  | PaymentAmountNotPositive | RefundExceedsAmount => InvalidAmount
  | ScheduledDateNotFuture | ScheduledDateInPast | NewDateNotFuture => InvalidDate
  | FileSizeExceeded => InvalidFile
  | TimeSlotNotAvailable => SlotTaken
  | UnauthorizedDownload => Forbidden
  | PaymentAlreadyCompleted => AlreadyCompleted
  | ReviewAlreadyCompleted => AlreadyComplete
  | Unauthorized => Unauthenticated
  | ValidationError | DuplicateKey | TypeError => Internal
  end.

(** ** Entities *)

Module User.

Inductive UserRole : Type := CUSTOMER | REVIEWER | ADMIN.

Record IUser : Type := mk {
  name : string;
  role : UserRole;
  isActive : bool
}.

Definition isReviewer (u : IUser) : bool :=
  match role u with REVIEWER => true | _ => false end.

End User.

Module Notification.

Inductive NotificationType : Type :=
| ORDER_CREATED | ORDER_ASSIGNED | ORDER_UPDATED | REVIEW_COMPLETED
| CONSULTATION_SCHEDULED | PAYMENT_RECEIVED | PAYMENT_FAILED
| DOCUMENT_UPLOADED | REMINDER | SYSTEM | GENERAL.

(** The message text (a formatted template) is not kept. *)
Record INotification : Type := mk {
  userId : ObjectId;
  orderId : ObjectId;
  title : string;
  type : NotificationType
}.

End Notification.

Module Order.

Inductive OrderStatus : Type :=
| PENDING_REVIEW | ASSIGNED | IN_PROGRESS | UNDER_REVIEW
| COMPLETED | CANCELLED | REFUNDED.

Definition status_eqb (a b : OrderStatus) : bool :=
  match a, b with
  | PENDING_REVIEW, PENDING_REVIEW | ASSIGNED, ASSIGNED
  | IN_PROGRESS, IN_PROGRESS | UNDER_REVIEW, UNDER_REVIEW
  | COMPLETED, COMPLETED | CANCELLED, CANCELLED | REFUNDED, REFUNDED => true
  | _, _ => false
  end.

(** The fields of [IOrder] the rules read or write.  [orderNumber], [title],
    [description], [productType], [priority] and [dueDate] take no part. *)
Record IOrder : Type := mk {
  customerId : ObjectId;
  reviewerId : option ObjectId;
  status : OrderStatus;
  totalAmount : Z;
  paidAmount : Z;
  assignedAt : option Date;
  completedAt : option Date
}.

Definition set_reviewerId (v : option ObjectId) (o : IOrder) : IOrder :=
  mk (customerId o) v (status o) (totalAmount o) (paidAmount o)
     (assignedAt o) (completedAt o).
Definition set_status (v : OrderStatus) (o : IOrder) : IOrder :=
  mk (customerId o) (reviewerId o) v (totalAmount o) (paidAmount o)
     (assignedAt o) (completedAt o).
Definition set_paidAmount (v : Z) (o : IOrder) : IOrder :=
  mk (customerId o) (reviewerId o) (status o) (totalAmount o) v
     (assignedAt o) (completedAt o).
Definition set_assignedAt (v : option Date) (o : IOrder) : IOrder :=
  mk (customerId o) (reviewerId o) (status o) (totalAmount o) (paidAmount o)
     v (completedAt o).
Definition set_completedAt (v : option Date) (o : IOrder) : IOrder :=
  mk (customerId o) (reviewerId o) (status o) (totalAmount o) (paidAmount o)
     (assignedAt o) v.

(** Schema validators: [totalAmount] and [paidAmount] have [min: 0]. *)
Definition validate (o : IOrder) : bool :=
  (0 <=? totalAmount o) && (0 <=? paidAmount o).

(** [OrderSchema.pre('save')].  The order-number branch only fills a
    missing [orderNumber]. *)
Definition pre_save (now : Date) (o : IOrder) : IOrder :=
  let o1 := if is_set (reviewerId o) && negb (is_set (assignedAt o))
            then set_assignedAt (Some now) o else o in
  if status_eqb (status o1) COMPLETED && negb (is_set (completedAt o1))
  then set_completedAt (Some now) o1 else o1.

Definition canBeAssigned (o : IOrder) : bool := status_eqb (status o) PENDING_REVIEW.

End Order.

Module Payment.

Inductive PaymentStatus : Type :=
| PENDING | PROCESSING | COMPLETED | FAILED | REFUNDED | CANCELLED.

Definition status_eqb (a b : PaymentStatus) : bool :=
  match a, b with
  | PENDING, PENDING | PROCESSING, PROCESSING | COMPLETED, COMPLETED
  | FAILED, FAILED | REFUNDED, REFUNDED | CANCELLED, CANCELLED => true
  | _, _ => false
  end.

(** The ledger fields of [IPayment].  Currency, method, provider, card and
    gateway reference fields and [metadata] are carried verbatim by the
    code and take no part in the rules. *)
Record IPayment : Type := mk {
  orderId : ObjectId;
  amount : Z;
  status : PaymentStatus;
  transactionId : option string;
  fee : Z;
  netAmount : option Z;
  refundAmount : option Z;
  refundReason : option string;
  refundId : option string;
  failureReason : option string;
  processedAt : option Date;
  refundedAt : option Date
}.

Definition set_status (v : PaymentStatus) (p : IPayment) : IPayment :=
  mk (orderId p) (amount p) v (transactionId p) (fee p) (netAmount p)
     (refundAmount p) (refundReason p) (refundId p) (failureReason p)
     (processedAt p) (refundedAt p).
Definition set_transactionId (v : option string) (p : IPayment) : IPayment :=
  mk (orderId p) (amount p) (status p) v (fee p) (netAmount p)
     (refundAmount p) (refundReason p) (refundId p) (failureReason p)
     (processedAt p) (refundedAt p).
Definition set_fee (v : Z) (p : IPayment) : IPayment :=
  mk (orderId p) (amount p) (status p) (transactionId p) v (netAmount p)
     (refundAmount p) (refundReason p) (refundId p) (failureReason p)
     (processedAt p) (refundedAt p).
Definition set_netAmount (v : option Z) (p : IPayment) : IPayment :=
  mk (orderId p) (amount p) (status p) (transactionId p) (fee p) v
     (refundAmount p) (refundReason p) (refundId p) (failureReason p)
     (processedAt p) (refundedAt p).
Definition set_refund (a : option Z) (r i : option string) (p : IPayment) : IPayment :=
  mk (orderId p) (amount p) (status p) (transactionId p) (fee p) (netAmount p)
     a r i (failureReason p) (processedAt p) (refundedAt p).
Definition set_failureReason (v : option string) (p : IPayment) : IPayment :=
  mk (orderId p) (amount p) (status p) (transactionId p) (fee p) (netAmount p)
     (refundAmount p) (refundReason p) (refundId p) v
     (processedAt p) (refundedAt p).
Definition set_processedAt (v : option Date) (p : IPayment) : IPayment :=
  mk (orderId p) (amount p) (status p) (transactionId p) (fee p) (netAmount p)
     (refundAmount p) (refundReason p) (refundId p) (failureReason p)
     v (refundedAt p).
Definition set_refundedAt (v : option Date) (p : IPayment) : IPayment :=
  mk (orderId p) (amount p) (status p) (transactionId p) (fee p) (netAmount p)
     (refundAmount p) (refundReason p) (refundId p) (failureReason p)
     (processedAt p) v.

Definition min0 (o : option Z) : bool :=
  match o with Some n => 0 <=? n | None => true end.

(** Schema validators: [amount] has [min: 0] and the validator [amount > 0];
    [fee], [netAmount] and [refundAmount] have [min: 0]. *)
Definition validate (p : IPayment) : bool :=
  (0 <=? amount p) && (0 <? amount p) && (0 <=? fee p)
  && min0 (netAmount p) && min0 (refundAmount p).

(** [PaymentSchema.pre('save')]; [txn] is the generated transaction id. *)
Definition pre_save (now : Date) (txn : string) (p : IPayment) : IPayment :=
  let p1 :=
    if truthy_num (fee p) && negb (truthy_opt_num (netAmount p))
    then set_netAmount (Some (amount p - fee p)) p
    else if negb (truthy_opt_num (netAmount p))
         then set_netAmount (Some (amount p)) p
         else p in
  let p2 :=
    if status_eqb (status p1) COMPLETED && negb (is_set (processedAt p1))
    then set_processedAt (Some now) p1 else p1 in
  let p3 :=
    if status_eqb (status p2) REFUNDED && negb (is_set (refundedAt p2))
    then set_refundedAt (Some now) p2 else p2 in
  if negb (truthy_opt_str (transactionId p3)) && negb (status_eqb (status p3) PENDING)
  then set_transactionId (Some txn) p3 else p3.

End Payment.

Module Review.

(** The completion fields of [IReview].  The body of a review ([title],
    [content], [recommendations], [severity], [attachments], [tags],
    [ratings], [reviewTime]) takes no part in the completion rule: the
    pre-save hook only derives [ratings.overall] and normalises [tags]. *)
Record IReview : Type := mk {
  orderId : ObjectId;
  reviewerId : ObjectId;
  isComplete : bool
}.

Definition set_isComplete (v : bool) (r : IReview) : IReview :=
  mk (orderId r) (reviewerId r) v.

End Review.

Module Document.

(** [fileName], [originalName], [fileType] and [metadata] take no part. *)
Record IDocument : Type := mk {
  orderId : ObjectId;
  filePath : string;
  fileSize : Z;
  uploadedBy : ObjectId;
  isActive : bool;
  downloadCount : Z
}.

Definition set_downloadCount (v : Z) (d : IDocument) : IDocument :=
  mk (orderId d) (filePath d) (fileSize d) (uploadedBy d) (isActive d) v.

Definition maxFileSize : Z := 50 * 1024 * 1024.

(** Schema validators: [fileSize] in [0, 50MB], [downloadCount] with [min: 0]. *)
Definition validate (d : IDocument) : bool :=
  (0 <=? fileSize d) && (fileSize d <=? maxFileSize) && (0 <=? downloadCount d).

(** [DocumentSchema.pre('save')]: [true] when the hook calls [next()] without
    an error. *)
Definition pre_save_ok (d : IDocument) : bool := negb (maxFileSize <? fileSize d).

End Document.

Module Consultation.

Inductive ConsultationStatus : Type :=
| SCHEDULED | IN_PROGRESS | COMPLETED | CANCELLED | RESCHEDULED.

Definition status_eqb (a b : ConsultationStatus) : bool :=
  match a, b with
  | SCHEDULED, SCHEDULED | IN_PROGRESS, IN_PROGRESS | COMPLETED, COMPLETED
  | CANCELLED, CANCELLED | RESCHEDULED, RESCHEDULED => true
  | _, _ => false
  end.

Record Reminders : Type := mkReminders {
  sent24h : bool;
  sent1h : bool;
  sent15min : bool
}.

Record RescheduleEntry : Type := mkEntry {
  previousDate : Date;
  reason : string;
  rescheduledBy : ObjectId;
  rescheduledAt : Date
}.

(** [meetingId], [roomId], [customerNotes], [reviewerNotes], [recordingUrl],
    [transcriptUrl], [attachments] and [rating] take no part. *)
Record IConsultation : Type := mk {
  orderId : ObjectId;
  customerId : ObjectId;
  reviewerId : ObjectId;
  scheduledDate : Date;
  actualStartTime : option Date;
  actualEndTime : option Date;
  duration : Z;
  status : ConsultationStatus;
  meetingLink : option string;
  notes : option string;
  reminders : Reminders;
  rescheduleHistory : list RescheduleEntry
}.

Definition set_scheduledDate (v : Date) (c : IConsultation) : IConsultation :=
  mk (orderId c) (customerId c) (reviewerId c) v (actualStartTime c)
     (actualEndTime c) (duration c) (status c) (meetingLink c) (notes c)
     (reminders c) (rescheduleHistory c).
Definition set_actualStartTime (v : option Date) (c : IConsultation) : IConsultation :=
  mk (orderId c) (customerId c) (reviewerId c) (scheduledDate c) v
     (actualEndTime c) (duration c) (status c) (meetingLink c) (notes c)
     (reminders c) (rescheduleHistory c).
Definition set_actualEndTime (v : option Date) (c : IConsultation) : IConsultation :=
  mk (orderId c) (customerId c) (reviewerId c) (scheduledDate c) (actualStartTime c)
     v (duration c) (status c) (meetingLink c) (notes c)
     (reminders c) (rescheduleHistory c).
Definition set_status (v : ConsultationStatus) (c : IConsultation) : IConsultation :=
  mk (orderId c) (customerId c) (reviewerId c) (scheduledDate c) (actualStartTime c)
     (actualEndTime c) (duration c) v (meetingLink c) (notes c)
     (reminders c) (rescheduleHistory c).
Definition set_notes (v : option string) (c : IConsultation) : IConsultation :=
  mk (orderId c) (customerId c) (reviewerId c) (scheduledDate c) (actualStartTime c)
     (actualEndTime c) (duration c) (status c) (meetingLink c) v
     (reminders c) (rescheduleHistory c).
Definition set_reminders (v : Reminders) (c : IConsultation) : IConsultation :=
  mk (orderId c) (customerId c) (reviewerId c) (scheduledDate c) (actualStartTime c)
     (actualEndTime c) (duration c) (status c) (meetingLink c) (notes c)
     v (rescheduleHistory c).
Definition set_rescheduleHistory (v : list RescheduleEntry) (c : IConsultation) : IConsultation :=
  mk (orderId c) (customerId c) (reviewerId c) (scheduledDate c) (actualStartTime c)
     (actualEndTime c) (duration c) (status c) (meetingLink c) (notes c)
     (reminders c) v.

(** Schema validators: [scheduledDate] must satisfy [date > new Date()],
    [duration] lies in [15, 180]. *)
Definition validate (now : Date) (c : IConsultation) : bool :=
  (now <? scheduledDate c) && (15 <=? duration c) && (duration c <=? 180).

(** [ConsultationSchema.pre('save')]: [None] when the hook passes an error to
    [next]. *)
Definition pre_save (now : Date) (isNew : bool) (c : IConsultation) : option IConsultation :=
  if isNew && (scheduledDate c <=? now) then None
  else
    let c1 := if status_eqb (status c) IN_PROGRESS && negb (is_set (actualStartTime c))
              then set_actualStartTime (Some now) c else c in
    let c2 := if status_eqb (status c1) COMPLETED && negb (is_set (actualEndTime c1))
              then set_actualEndTime (Some now) c1 else c1 in
    Some c2.

End Consultation.

(** ** The entity store, the environment and the request monad *)

Record Store : Type := mkStore {
  users : gmap string User.IUser;
  orders : gmap string Order.IOrder;
  payments : gmap string Payment.IPayment;
  reviews : gmap string Review.IReview;
  documents : gmap string Document.IDocument;
  consultations : gmap string Consultation.IConsultation;
  notifications : list Notification.INotification
}.

Definition set_orders (f : gmap string Order.IOrder -> gmap string Order.IOrder)
    (s : Store) : Store :=
  mkStore (users s) (f (orders s)) (payments s) (reviews s) (documents s)
          (consultations s) (notifications s).
Definition set_payments (f : gmap string Payment.IPayment -> gmap string Payment.IPayment)
    (s : Store) : Store :=
  mkStore (users s) (orders s) (f (payments s)) (reviews s) (documents s)
          (consultations s) (notifications s).
Definition set_reviews (f : gmap string Review.IReview -> gmap string Review.IReview)
    (s : Store) : Store :=
  mkStore (users s) (orders s) (payments s) (f (reviews s)) (documents s)
          (consultations s) (notifications s).
Definition set_documents (f : gmap string Document.IDocument -> gmap string Document.IDocument)
    (s : Store) : Store :=
  mkStore (users s) (orders s) (payments s) (reviews s) (f (documents s))
          (consultations s) (notifications s).
Definition set_consultations
    (f : gmap string Consultation.IConsultation -> gmap string Consultation.IConsultation)
    (s : Store) : Store :=
  mkStore (users s) (orders s) (payments s) (reviews s) (documents s)
          (f (consultations s)) (notifications s).
Definition add_notifications (l : list Notification.INotification) (s : Store) : Store :=
  mkStore (users s) (orders s) (payments s) (reviews s) (documents s)
          (consultations s) (notifications s ++ l).

(** What a request reads from outside the store: the clock ([new Date()],
    [Date.now()]), the identifier the store gives to a created document, the
    random material of generated transaction and meeting ids, and which file
    paths [fs.access] finds. *)
Record Env : Type := mkEnv {
  now : Date;
  newId : ObjectId;
  token : string;
  fs_access : string -> bool
}.

Inductive outcome (A : Type) : Type :=
| Return (a : A)
| Throw (e : Error).
Arguments Return {A} a.
Arguments Throw {A} e.

Definition M (A : Type) : Type := Store -> outcome A * Store.

Definition ret {A : Type} (a : A) : M A := fun s => (Return a, s).
Definition throw {A : Type} (e : Error) : M A := fun s => (Throw e, s).
Definition bind {A B : Type} (m : M A) (k : A -> M B) : M B :=
  fun s => match m s with
           | (Return a, s') => k a s'
           | (Throw e, s') => (Throw e, s')
           end.
Definition gets {A : Type} (f : Store -> A) : M A := fun s => (Return (f s), s).
Definition modify (f : Store -> Store) : M unit := fun s => (Return tt, f s).

Notation "'let!' x ':=' m 'in' k" := (bind m (fun x => k))
  (at level 10, x pattern, m at level 100, k at level 200).
Notation "m ';;' k" := (bind m (fun _ => k))
  (at level 100, k at level 200, right associativity).

(** [await x] on a nullable result followed by [if (!x) throw ...]. *)
Definition orThrow {A : Type} (o : option A) (e : Error) : M A :=
  match o with Some a => ret a | None => throw e end.

Definition when (b : bool) (m : M unit) : M unit := if b then m else ret tt.

Definition final {A : Type} (r : outcome A * Store) : Store := snd r.

(** ** Model layer: [save] with its validation and middleware

    A [save] runs, in this order, the schema validators, the pre-save hook,
    the write and the post-save hook; [findByIdAndUpdate] runs none of
    them. *)

Module Notifications.

Definition create (n : Notification.INotification) : M unit :=
  modify (add_notifications [n]).

Definition insertMany (l : list Notification.INotification) : M unit :=
  modify (add_notifications l).

End Notifications.

Module Orders.

Definition findById (id : ObjectId) : M (option Order.IOrder) :=
  gets (fun s => orders s !! id).

(** [order.save()] on a document loaded from the store: validation, the
    pre-save hook, then the write. *)
Definition save (env : Env) (id : ObjectId) (o : Order.IOrder) : M Order.IOrder :=
  if Order.validate o then
    let o' := Order.pre_save (now env) o in
    modify (set_orders (insert id o')) ;;
    ret o'
  else throw ValidationError.

(** [Order.findByIdAndUpdate(id, update)]: no validators, no save hooks, and
    no effect when the id is absent. *)
Definition findByIdAndUpdate (id : ObjectId) (f : Order.IOrder -> Order.IOrder) : M unit :=
  modify (set_orders (alter f id)).

End Orders.

Module Payments.

Definition findById (id : ObjectId) : M (option Payment.IPayment) :=
  gets (fun s => payments s !! id).

(** [PaymentSchema.post('save')]. *)
Definition post_save (doc : Payment.IPayment) : M unit :=
  when (Payment.status_eqb (Payment.status doc) Payment.COMPLETED)
    (Orders.findByIdAndUpdate (Payment.orderId doc)
       (fun o => Order.set_paidAmount (Order.paidAmount o + Payment.amount doc) o) ;;
     let! order := Orders.findById (Payment.orderId doc) in
     match order with
     | Some o =>
         Notifications.create
           (Notification.mk (Order.customerId o) (Payment.orderId doc)
              "Payment Received" Notification.PAYMENT_RECEIVED)
     | None => ret tt
     end) ;;
  when (Payment.status_eqb (Payment.status doc) Payment.FAILED)
    (let! order := Orders.findById (Payment.orderId doc) in
     match order with
     | Some o =>
         Notifications.create
           (Notification.mk (Order.customerId o) (Payment.orderId doc)
              "Payment Failed" Notification.PAYMENT_FAILED)
     | None => ret tt
     end).

Definition save (env : Env) (id : ObjectId) (p : Payment.IPayment) : M Payment.IPayment :=
  if Payment.validate p then
    let p' := Payment.pre_save (now env) ("txn_" ++ token env) p in
    modify (set_payments (insert id p')) ;;
    post_save p' ;;
    ret p'
  else throw ValidationError.

(** [new Payment(data).save()]: the insert of a fresh document. *)
Definition create (env : Env) (p : Payment.IPayment) : M Payment.IPayment :=
  let! existing := findById (newId env) in
  if is_set existing then throw DuplicateKey else save env (newId env) p.

(** Instance methods. *)
Definition complete (env : Env) (id : ObjectId) (p : Payment.IPayment)
    (transactionId : option string) : M Payment.IPayment :=
  let p1 := Payment.set_status Payment.COMPLETED p in
  let p2 := Payment.set_processedAt (Some (now env)) p1 in
  let p3 := if truthy_opt_str transactionId
            then Payment.set_transactionId transactionId p2 else p2 in
  save env id p3.

Definition fail (env : Env) (id : ObjectId) (p : Payment.IPayment)
    (reason : option string) : M Payment.IPayment :=
  let p1 := Payment.set_status Payment.FAILED p in
  let p2 := if truthy_opt_str reason then Payment.set_failureReason reason p1 else p1 in
  save env id p2.

Definition refund (env : Env) (id : ObjectId) (p : Payment.IPayment)
    (amount : option Z) (reason refundId : option string) : M Payment.IPayment :=
  let p1 := Payment.set_status Payment.REFUNDED p in
  let p2 := Payment.set_refund (Some (num_or amount (Payment.amount p1))) reason refundId p1 in
  let p3 := Payment.set_refundedAt (Some (now env)) p2 in
  save env id p3.

Definition cancel (env : Env) (id : ObjectId) (p : Payment.IPayment) : M Payment.IPayment :=
  if Payment.status_eqb (Payment.status p) Payment.PENDING
  then save env id (Payment.set_status Payment.CANCELLED p)
  else throw OnlyPendingCancellable.

End Payments.

Module Reviews.

Definition findById (id : ObjectId) : M (option Review.IReview) :=
  gets (fun s => reviews s !! id).

(** [ReviewSchema.post('save')]. *)
Definition post_save (env : Env) (doc : Review.IReview) : M unit :=
  when (Review.isComplete doc)
    (Orders.findByIdAndUpdate (Review.orderId doc)
       (fun o => Order.set_completedAt (Some (now env))
                   (Order.set_status Order.COMPLETED o))).

Definition save (env : Env) (id : ObjectId) (r : Review.IReview) : M Review.IReview :=
  modify (set_reviews (insert id r)) ;;
  post_save env r ;;
  ret r.

End Reviews.

Module Documents.

Definition save (env : Env) (id : ObjectId) (d : Document.IDocument) : M Document.IDocument :=
  if Document.validate d then
    if Document.pre_save_ok d then
      modify (set_documents (insert id d)) ;;
      ret d
    else throw FileSizeExceeded
  else throw ValidationError.

Definition incrementDownloadCount (env : Env) (id : ObjectId) (d : Document.IDocument)
    : M Document.IDocument :=
  save env id (Document.set_downloadCount (Document.downloadCount d + 1) d).

End Documents.

Module Consultations.

Definition findById (id : ObjectId) : M (option Consultation.IConsultation) :=
  gets (fun s => consultations s !! id).

(** [ConsultationSchema.post('save')]. *)
Definition post_save (isNew : bool) (doc : Consultation.IConsultation) : M unit :=
  when (isNew && Consultation.status_eqb (Consultation.status doc) Consultation.SCHEDULED)
    (Notifications.insertMany
       [Notification.mk (Consultation.customerId doc) (Consultation.orderId doc)
          "Consultation Scheduled" Notification.CONSULTATION_SCHEDULED;
        Notification.mk (Consultation.reviewerId doc) (Consultation.orderId doc)
          "Consultation Scheduled" Notification.CONSULTATION_SCHEDULED]).

(** [consultation.save()]; [isNew] is the document's flag when [save] is
    called.  The flag is already cleared when the post-save hook runs. *)
Definition save (env : Env) (isNew : bool) (id : ObjectId) (c : Consultation.IConsultation)
    : M Consultation.IConsultation :=
  if Consultation.validate (now env) c then
    match Consultation.pre_save (now env) isNew c with
    | Some c' =>
        modify (set_consultations (insert id c')) ;;
        post_save false c' ;;
        ret c'
    | None => throw ScheduledDateInPast
    end
  else throw ValidationError.

Definition create (env : Env) (c : Consultation.IConsultation) : M Consultation.IConsultation :=
  let! existing := findById (newId env) in
  if is_set existing then throw DuplicateKey else save env true (newId env) c.

(** Instance methods. *)
Definition start (env : Env) (id : ObjectId) (c : Consultation.IConsultation)
    : M Consultation.IConsultation :=
  let c1 := Consultation.set_status Consultation.IN_PROGRESS c in
  let c2 := Consultation.set_actualStartTime (Some (now env)) c1 in
  save env false id c2.

Definition complete (env : Env) (id : ObjectId) (c : Consultation.IConsultation)
    (notes : option string) : M Consultation.IConsultation :=
  let c1 := Consultation.set_status Consultation.COMPLETED c in
  let c2 := Consultation.set_actualEndTime (Some (now env)) c1 in
  let c3 := if truthy_opt_str notes then Consultation.set_notes notes c2 else c2 in
  save env false id c3.

Definition cancellation (reason : string) : string := "Cancellation reason: " ++ reason.

Definition cancel (env : Env) (id : ObjectId) (c : Consultation.IConsultation)
    (reason : option string) : M Consultation.IConsultation :=
  let c1 := Consultation.set_status Consultation.CANCELLED c in
  let c2 :=
    match reason, Consultation.notes c1 with
    | Some r, Some n =>
        if truthy_str r && truthy_str n
        then Consultation.set_notes (Some (n ++ newline ++ cancellation r)) c1
        else if truthy_str r then Consultation.set_notes (Some (cancellation r)) c1
        else c1
    | Some r, None =>
        if truthy_str r then Consultation.set_notes (Some (cancellation r)) c1 else c1
    | None, _ => c1
    end in
  save env false id c2.

Definition reschedule (env : Env) (id : ObjectId) (c : Consultation.IConsultation)
    (newDate : Date) (reason : string) (rescheduledBy : ObjectId)
    : M Consultation.IConsultation :=
  let entry := Consultation.mkEntry (Consultation.scheduledDate c) reason rescheduledBy (now env) in
  let c1 := Consultation.set_rescheduleHistory (Consultation.rescheduleHistory c ++ [entry]) c in
  let c2 := Consultation.set_scheduledDate newDate c1 in
  let c3 := Consultation.set_status Consultation.SCHEDULED c2 in
  let c4 := Consultation.set_reminders (Consultation.mkReminders false false false) c3 in
  save env false id c4.

End Consultations.

(** ** Service layer *)

Module OrderService.

Definition assignReviewer (env : Env) (orderId reviewerId : ObjectId) : M Order.IOrder :=
  let! reviewer := gets (fun s => users s !! reviewerId) in
  match reviewer with
  | Some r =>
      if User.isActive r && User.isReviewer r then
        let! found := Orders.findById orderId in
        let! order := orThrow found OrderNotFound in
        if negb (Order.canBeAssigned order) then throw OrderCannotBeAssigned
        else
          let order1 := Order.set_reviewerId (Some reviewerId) order in
          let order2 := Order.set_status Order.ASSIGNED order1 in
          let order3 := Order.set_assignedAt (Some (now env)) order2 in
          let! updatedOrder := Orders.save env orderId order3 in
          Notifications.create
            (Notification.mk (Order.customerId updatedOrder) orderId
               "Order Assigned" Notification.ORDER_ASSIGNED) ;;
          Notifications.create
            (Notification.mk reviewerId orderId
               "New Order Assignment" Notification.ORDER_ASSIGNED) ;;
          ret updatedOrder
      else throw InvalidOrInactiveReviewer
  | None => throw InvalidOrInactiveReviewer
  end.

Definition updateOrderStatus (env : Env) (orderId : ObjectId) (status : Order.OrderStatus)
    : M Order.IOrder :=
  let! found := Orders.findById orderId in
  let! order := orThrow found OrderNotFound in
  let oldStatus := Order.status order in
  let order1 := Order.set_status status order in
  let order2 := if Order.status_eqb status Order.COMPLETED
                then Order.set_completedAt (Some (now env)) order1 else order1 in
  let! updatedOrder := Orders.save env orderId order2 in
  when (negb (Order.status_eqb oldStatus status))
    (Notifications.create
       (Notification.mk (Order.customerId updatedOrder) orderId
          "Order Status Updated" Notification.ORDER_UPDATED)) ;;
  ret updatedOrder.

Definition cancelOrder (env : Env) (orderId : ObjectId) : M Order.IOrder :=
  let! found := Orders.findById orderId in
  let! order := orThrow found OrderNotFound in
  if Order.status_eqb (Order.status order) Order.COMPLETED
  then throw CannotCancelCompletedOrder
  else
    let! updatedOrder := Orders.save env orderId (Order.set_status Order.CANCELLED order) in
    Notifications.create
      (Notification.mk (Order.customerId updatedOrder) orderId
         "Order Cancelled" Notification.ORDER_UPDATED) ;;
    ret updatedOrder.

End OrderService.

Module PaymentService.

(** The [data] argument of [completePayment], on the ledger fields. *)
Record CompleteData : Type := mkCompleteData {
  transactionId : option string;
  fee : option Z
}.

Record RefundData : Type := mkRefundData {
  amount : option Z;
  reason : option string;
  refundId : option string
}.

(** [Object.assign(payment, data)]. *)
Definition assign (data : CompleteData) (p : Payment.IPayment) : Payment.IPayment :=
  let p1 := match transactionId data with
            | Some t => Payment.set_transactionId (Some t) p
            | None => p
            end in
  match fee data with
  | Some f => Payment.set_fee f p1
  | None => p1
  end.

Definition createPayment (env : Env) (orderId : ObjectId) (amount : Z) : M Payment.IPayment :=
  let! found := Orders.findById orderId in
  let! _ := orThrow found OrderNotFound in
  if amount <=? 0 then throw PaymentAmountNotPositive
  else
    Payments.create env
      (Payment.mk orderId amount Payment.PENDING None 0 None None None None None None None).

Definition completePayment (env : Env) (id : ObjectId) (data : CompleteData)
    : M Payment.IPayment :=
  let! found := Payments.findById id in
  let! payment := orThrow found PaymentNotFound in
  if Payment.status_eqb (Payment.status payment) Payment.COMPLETED
  then throw PaymentAlreadyCompleted
  else Payments.complete env id (assign data payment) (transactionId data).

Definition failPayment (env : Env) (id : ObjectId) (reason : option string)
    : M Payment.IPayment :=
  let! found := Payments.findById id in
  let! payment := orThrow found PaymentNotFound in
  if Payment.status_eqb (Payment.status payment) Payment.FAILED
  then throw PaymentAlreadyFailed
  else Payments.fail env id payment reason.

Definition refundPayment (env : Env) (id : ObjectId) (refundData : RefundData)
    : M Payment.IPayment :=
  let! found := Payments.findById id in
  let! payment := orThrow found PaymentNotFound in
  if negb (Payment.status_eqb (Payment.status payment) Payment.COMPLETED)
  then throw OnlyCompletedRefundable
  else if Payment.status_eqb (Payment.status payment) Payment.REFUNDED
  then throw PaymentAlreadyRefunded
  else
    let refundAmount := num_or (amount refundData) (Payment.amount payment) in
    if Payment.amount payment <? refundAmount then throw RefundExceedsAmount
    else
      let! refunded := Payments.refund env id payment (Some refundAmount)
                         (reason refundData) (refundId refundData) in
      let! order := Orders.findById (Payment.orderId refunded) in
      match order with
      | Some o =>
          let! saved := Orders.save env (Payment.orderId refunded)
                          (Order.set_paidAmount (Z.max 0 (Order.paidAmount o - refundAmount)) o) in
          Notifications.create
            (Notification.mk (Order.customerId saved) (Payment.orderId refunded)
               "Payment Refunded" Notification.PAYMENT_RECEIVED) ;;
          ret refunded
      | None => ret refunded
      end.

Definition cancelPayment (env : Env) (id : ObjectId) : M Payment.IPayment :=
  let! found := Payments.findById id in
  let! payment := orThrow found PaymentNotFound in
  Payments.cancel env id payment.

Definition retryFailedPayment (env : Env) (id : ObjectId) : M Payment.IPayment :=
  let! found := Payments.findById id in
  let! payment := orThrow found PaymentNotFound in
  if negb (Payment.status_eqb (Payment.status payment) Payment.FAILED)
  then throw OnlyFailedRetriable
  else
    Payments.save env id
      (Payment.set_failureReason None (Payment.set_status Payment.PENDING payment)).

End PaymentService.

Module ReviewService.

(** [additionalData] only carries body fields of the review. *)
Definition completeReview (env : Env) (id : ObjectId) : M Review.IReview :=
  let! found := Reviews.findById id in
  let! review := orThrow found ReviewNotFound in
  if Review.isComplete review then throw ReviewAlreadyCompleted
  else Reviews.save env id (Review.set_isComplete true review).

End ReviewService.

Module DocumentService.

Definition downloadDocument (env : Env) (id userId : ObjectId)
    : M (Document.IDocument * string) :=
  let! found := gets (fun s => documents s !! id) in
  match found with
  | None => throw DocumentNotFoundOrInactive
  | Some document =>
      if negb (Document.isActive document) then throw DocumentNotFoundOrInactive
      else
        (* populate('orderId', 'customerId reviewerId') *)
        let! populated := Orders.findById (Document.orderId document) in
        let! order := orThrow populated TypeError in
        if negb (String.eqb (Order.customerId order) userId)
           && match Order.reviewerId order with
              | Some r => negb (String.eqb r userId)
              | None => false
              end
        then throw UnauthorizedDownload
        else if negb (fs_access env (Document.filePath document))
        then throw FileNotFoundOnServer
        else
          let! document' := Documents.incrementDownloadCount env id document in
          ret (document', Document.filePath document')
  end.

End DocumentService.

Module ConsultationService.

Record ScheduleData : Type := mkScheduleData {
  orderId : ObjectId;
  customerId : ObjectId;
  reviewerId : ObjectId;
  scheduledDate : Date;
  duration : option Z;
  meetingLink : option string
}.

Definition generatedLink (env : Env) : string :=
  "https://meet.medicalreview.com/" ++ ("consult_" ++ token env).

(** [new Consultation(consultationData)] with the schema defaults. *)
Definition newConsultation (env : Env) (data : ScheduleData) : Consultation.IConsultation :=
  Consultation.mk (orderId data) (customerId data) (reviewerId data)
    (scheduledDate data) None None
    (match duration data with Some d => d | None => 60 end)
    Consultation.SCHEDULED
    (Some (if truthy_opt_str (meetingLink data)
           then match meetingLink data with Some l => l | None => "" end
           else generatedLink env))
    None (Consultation.mkReminders false false false) [].

Definition scheduleConsultation (env : Env) (consultationData : ScheduleData)
    : M Consultation.IConsultation :=
  let! order := Orders.findById (orderId consultationData) in
  let! _ := orThrow order OrderNotFound in
  let! customer := gets (fun s => users s !! customerId consultationData) in
  let! reviewer := gets (fun s => users s !! reviewerId consultationData) in
  match customer, reviewer with
  | Some _, Some r =>
      if negb (User.isReviewer r) then throw UserIsNotReviewer
      else if scheduledDate consultationData <=? now env then throw ScheduledDateNotFuture
      else Consultations.create env (newConsultation env consultationData)
  | _, _ => throw InvalidParticipants
  end.

Definition startConsultation (env : Env) (id : ObjectId) : M Consultation.IConsultation :=
  let! found := Consultations.findById id in
  let! consultation := orThrow found ConsultationNotFound in
  if negb (Consultation.status_eqb (Consultation.status consultation) Consultation.SCHEDULED)
  then throw ConsultationCannotBeStarted
  else Consultations.start env id consultation.

(** [data] on the field kept in the record; [Object.assign] writes the keys
    that are present. *)
Definition completeConsultation (env : Env) (id : ObjectId) (notes : option string)
    : M Consultation.IConsultation :=
  let! found := Consultations.findById id in
  let! consultation := orThrow found ConsultationNotFound in
  if negb (Consultation.status_eqb (Consultation.status consultation) Consultation.IN_PROGRESS)
  then throw ConsultationNotInProgress
  else
    let assigned := match notes with
                    | Some n => Consultation.set_notes (Some n) consultation
                    | None => consultation
                    end in
    Consultations.complete env id assigned notes.

Definition cancelConsultation (env : Env) (id : ObjectId) (reason : option string)
    : M Consultation.IConsultation :=
  let! found := Consultations.findById id in
  let! consultation := orThrow found ConsultationNotFound in
  if negb (Consultation.status_eqb (Consultation.status consultation) Consultation.SCHEDULED
           || Consultation.status_eqb (Consultation.status consultation) Consultation.IN_PROGRESS)
  then throw ConsultationCannotBeCancelled
  else
    let! cancelled := Consultations.cancel env id consultation reason in
    Notifications.insertMany
      [Notification.mk (Consultation.customerId cancelled) (Consultation.orderId cancelled)
         "Consultation Cancelled" Notification.CONSULTATION_SCHEDULED;
       Notification.mk (Consultation.reviewerId cancelled) (Consultation.orderId cancelled)
         "Consultation Cancelled" Notification.CONSULTATION_SCHEDULED] ;;
    ret cancelled.

Definition rescheduleConsultation (env : Env) (id : ObjectId) (newDate : Date)
    (reason : string) (rescheduledBy : ObjectId) : M Consultation.IConsultation :=
  let! found := Consultations.findById id in
  let! consultation := orThrow found ConsultationNotFound in
  if negb (Consultation.status_eqb (Consultation.status consultation) Consultation.SCHEDULED)
  then throw OnlyScheduledReschedulable
  else if newDate <=? now env then throw NewDateNotFuture
  else
    let! rescheduled := Consultations.reschedule env id consultation newDate reason rescheduledBy in
    Notifications.insertMany
      [Notification.mk (Consultation.customerId rescheduled) (Consultation.orderId rescheduled)
         "Consultation Rescheduled" Notification.CONSULTATION_SCHEDULED;
       Notification.mk (Consultation.reviewerId rescheduled) (Consultation.orderId rescheduled)
         "Consultation Rescheduled" Notification.CONSULTATION_SCHEDULED] ;;
    ret rescheduled.

End ConsultationService.

(** ** The consultation routes ([/api/consultations] and its availability
    handler) *)

Module ConsultationRoute.

Definition isActiveStatus (st : Consultation.ConsultationStatus) : bool :=
  Consultation.status_eqb st Consultation.SCHEDULED
  || Consultation.status_eqb st Consultation.IN_PROGRESS.

(** [findFirst({ where })] over a collection. *)
Definition findFirst {A : Type} (where_ : ObjectId -> A -> bool) (m : gmap string A)
    : option (ObjectId * A) :=
  List.find (fun kv => where_ (fst kv) (snd kv)) (map_to_list m).

Record BookingBody : Type := mkBody {
  orderId : ObjectId;
  reviewerId : ObjectId;
  scheduledDate : Date;
  duration : option Z
}.

(** [POST]: create a new consultation booking.  [session] is
    [session?.user?.id]. *)
Definition POST (env : Env) (session : option ObjectId) (body : BookingBody)
    : M Consultation.IConsultation :=
  match session with
  | None => throw Unauthorized
  | Some userId =>
      let! order := gets (fun s =>
        findFirst (fun id o => String.eqb id (orderId body)
                               && String.eqb (Order.customerId o) userId) (orders s)) in
      let! _ := orThrow order OrderNotFound in
      (* Check if the time slot is available *)
      let! existingConsultation := gets (fun s =>
        findFirst (fun _ c => String.eqb (Consultation.reviewerId c) (reviewerId body)
                              && (Consultation.scheduledDate c =? scheduledDate body)
                              && isActiveStatus (Consultation.status c)) (consultations s)) in
      if is_set existingConsultation then throw TimeSlotNotAvailable
      else
        let consultation :=
          Consultation.mk (orderId body) userId (reviewerId body) (scheduledDate body)
            None None (num_or (duration body) 60) Consultation.SCHEDULED None None
            (Consultation.mkReminders false false false) [] in
        let! taken := Consultations.findById (newId env) in
        if is_set taken then throw DuplicateKey
        else
          modify (set_consultations (insert (newId env) consultation)) ;;
          Notifications.create
            (Notification.mk (reviewerId body) (orderId body)
               "New Consultation Scheduled" Notification.CONSULTATION_SCHEDULED) ;;
          ret consultation
  end.

(** The availability handler's test of one candidate slot against the
    reviewer's existing consultations (one-hour slots). *)
Definition isBooked (existingConsultations : list Consultation.IConsultation)
    (slotTime : Date) : bool :=
  existsb (fun consultation =>
             let consultationStart := Consultation.scheduledDate consultation in
             let consultationEnd := consultationStart + Consultation.duration consultation * 60000 in
             let slotEnd := slotTime + 60 * 60000 in
             (slotTime <? consultationEnd) && (consultationStart <? slotEnd))
          existingConsultations.

(** The [findMany] of the availability handler. *)
Definition existingConsultations (s : Store) (reviewerId : ObjectId) (startDate endDate : Date)
    : list Consultation.IConsultation :=
  snd <$> List.filter
    (fun kv => String.eqb (Consultation.reviewerId (snd kv)) reviewerId
               && (startDate <=? Consultation.scheduledDate (snd kv))
               && (Consultation.scheduledDate (snd kv) <=? endDate)
               && isActiveStatus (Consultation.status (snd kv)))
    (map_to_list (consultations s)).

End ConsultationRoute.

(** ** Requests against the ledger and the order controller, run one after
    the other *)

Module Ledger.

Inductive Request : Type :=
| CreatePayment (orderId : ObjectId) (amount : Z)
| CompletePayment (id : ObjectId) (data : PaymentService.CompleteData)
| FailPayment (id : ObjectId) (reason : option string)
| RefundPayment (id : ObjectId) (data : PaymentService.RefundData)
| CancelPayment (id : ObjectId)
| RetryFailedPayment (id : ObjectId)
| AssignReviewer (orderId reviewerId : ObjectId)
| UpdateOrderStatus (orderId : ObjectId) (status : Order.OrderStatus)
| CancelOrder (orderId : ObjectId).

(** The store a request leaves behind, whether it returns or throws. *)
Definition handle (env : Env) (r : Request) (s : Store) : Store :=
  match r with
  | CreatePayment o a => final (PaymentService.createPayment env o a s)
  | CompletePayment id d => final (PaymentService.completePayment env id d s)
  | FailPayment id r => final (PaymentService.failPayment env id r s)
  | RefundPayment id d => final (PaymentService.refundPayment env id d s)
  | CancelPayment id => final (PaymentService.cancelPayment env id s)
  | RetryFailedPayment id => final (PaymentService.retryFailedPayment env id s)
  | AssignReviewer o r => final (OrderService.assignReviewer env o r s)
  | UpdateOrderStatus o st => final (OrderService.updateOrderStatus env o st s)
  | CancelOrder o => final (OrderService.cancelOrder env o s)
  end.

Fixpoint run (l : list (Env * Request)) (s : Store) : Store :=
  match l with
  | [] => s
  | (env, r) :: l' => run l' (handle env r s)
  end.

Definition isOrderStatusRequest (r : Request) : bool :=
  match r with
  | AssignReviewer _ _ | UpdateOrderStatus _ _ | CancelOrder _ => true
  | _ => false
  end.


End Ledger.

(** ** The consultation lifecycle as a labelled transition system *)

Module Lifecycle.

Inductive Action : Type := START | COMPLETE | CANCEL | RESCHEDULE.

Inductive Op : Type :=
| Start
| Complete (notes : option string)
| Cancel (reason : option string)
| Reschedule (newDate : Date) (reason : string) (rescheduledBy : ObjectId).

Definition action_of (op : Op) : Action :=
  match op with
  | Start => START
  | Complete _ => COMPLETE
  | Cancel _ => CANCEL
  | Reschedule _ _ _ => RESCHEDULE
  end.

Definition perform (env : Env) (id : ObjectId) (op : Op) : M Consultation.IConsultation :=
  match op with
  | Start => ConsultationService.startConsultation env id
  | Complete notes => ConsultationService.completeConsultation env id notes
  | Cancel reason => ConsultationService.cancelConsultation env id reason
  | Reschedule d r by_ => ConsultationService.rescheduleConsultation env id d r by_
  end.



(** The transition list with cancellation of a running consultation. *)
Inductive service_transition
  : Consultation.ConsultationStatus -> Action -> Consultation.ConsultationStatus -> Prop :=
| service_start : service_transition Consultation.SCHEDULED START Consultation.IN_PROGRESS
| service_complete : service_transition Consultation.IN_PROGRESS COMPLETE Consultation.COMPLETED
| service_cancel : service_transition Consultation.SCHEDULED CANCEL Consultation.CANCELLED
| service_cancel_running :
    service_transition Consultation.IN_PROGRESS CANCEL Consultation.CANCELLED
| service_reschedule :
    service_transition Consultation.SCHEDULED RESCHEDULE Consultation.SCHEDULED.

End Lifecycle.

(** ** Interval overlap, as the specification words the slot rule *)

(** [[start1, start1 + d1)] and [[start2, start2 + d2)] overlap, durations in
    minutes. *)
Definition overlaps (start1 d1 start2 d2 : Z) : Prop :=
  start1 < start2 + d2 * 60000 /\ start2 < start1 + d1 * 60000.

(** [reviewerId] resolves to an active user with role REVIEWER. *)
Definition activeReviewer (s : Store) (reviewerId : ObjectId) : bool :=
  match users s !! reviewerId with
  | Some r => User.isActive r && User.isReviewer r
  | None => false
  end.

(** ** Sample data *)

Definition env_at (t : Date) (id : ObjectId) : Env :=
  mkEnv t id "a1b2c3d4e" (fun _ => true).

Definition emptyStore : Store := mkStore ∅ ∅ ∅ ∅ ∅ ∅ [].

Definition sampleUsers : gmap string User.IUser :=
  <["c1" := User.mk "Casey" User.CUSTOMER true]>
  (<["r1" := User.mk "Robin" User.REVIEWER true]>
  (<["u3" := User.mk "Uma" User.CUSTOMER true]> ∅)).

Definition sampleOrder (st : Order.OrderStatus) (reviewer : option ObjectId)
    (paid : Z) (completed : option Date) : Order.IOrder :=
  Order.mk "c1" reviewer st 350 paid None completed.

Definition storeWithOrder (o : Order.IOrder) : Store :=
  mkStore sampleUsers (<["o1" := o]> ∅) ∅ ∅ ∅ ∅ [].

Definition samplePayment (st : Payment.PaymentStatus) (amount : Z) : Payment.IPayment :=
  Payment.mk "o1" amount st None 0 (Some amount) None None None None None None.

Definition storeWithPayment (o : Order.IOrder) (p : Payment.IPayment) : Store :=
  mkStore sampleUsers (<["o1" := o]> ∅) (<["p1" := p]> ∅) ∅ ∅ ∅ [].

Definition storeWithReview (o : Order.IOrder) (r : Review.IReview) : Store :=
  mkStore sampleUsers (<["o1" := o]> ∅) ∅ (<["v1" := r]> ∅) ∅ ∅ [].

Definition sampleDocument : Document.IDocument :=
  Document.mk "o1" "/uploads/o1/scan.pdf" (49 * 1024 * 1024) "c1" true 0.

Definition storeWithDocument (o : Order.IOrder) (d : Document.IDocument) : Store :=
  mkStore sampleUsers (<["o1" := o]> ∅) ∅ ∅ (<["d1" := d]> ∅) ∅ [].

Definition minutes (n : Z) : Z := n * 60000.

(** A consultation of reviewer r1 for order o1, booked by customer c1. *)
Definition sampleConsultation (st : Consultation.ConsultationStatus) (start : Date)
    : Consultation.IConsultation :=
  Consultation.mk "o1" "c1" "r1" start None None 60 st None None
    (Consultation.mkReminders true true false) [].

Definition storeWithConsultation (c : Consultation.IConsultation) : Store :=
  mkStore sampleUsers (<["o1" := sampleOrder Order.ASSIGNED (Some "r1") 0 None]> ∅)
    ∅ ∅ ∅ (<["k1" := c]> ∅) [].

(** The start of the sample booking, and the clock of the sample requests
    (well before it). *)
Definition slotT : Date := 1767261600000.
Definition clock0 : Date := 1767000000000.

Definition overlappingBody : ConsultationRoute.BookingBody :=
  ConsultationRoute.mkBody "o1" "r1" (slotT + minutes 30) (Some 60).

Definition overlappingData : ConsultationService.ScheduleData :=
  ConsultationService.mkScheduleData "o1" "c1" "r1" (slotT + minutes 30) (Some 60) None.

(** What one request may write into the order [orderId]: the order before
    and after, for each request that touches orders. *)
Inductive order_write (env : Env) (s : Store)
  : Ledger.Request -> ObjectId -> Order.IOrder -> Order.IOrder -> Prop :=
| write_completion (id : ObjectId) (data : PaymentService.CompleteData)
    (p : Payment.IPayment) (o : Order.IOrder) :
    payments s !! id = Some p ->
    Payment.status p <> Payment.COMPLETED ->
    order_write env s (Ledger.CompletePayment id data) (Payment.orderId p) o
      (Order.set_paidAmount (Order.paidAmount o + Payment.amount p) o)
| write_refund (id : ObjectId) (data : PaymentService.RefundData)
    (p : Payment.IPayment) (o : Order.IOrder) :
    payments s !! id = Some p ->
    Payment.status p = Payment.COMPLETED ->
    num_or (PaymentService.amount data) (Payment.amount p) <= Payment.amount p ->
    order_write env s (Ledger.RefundPayment id data) (Payment.orderId p) o
      (Order.pre_save (now env)
         (Order.set_paidAmount
            (Z.max 0 (Order.paidAmount o
                      - num_or (PaymentService.amount data) (Payment.amount p))) o))
| write_assign (orderId reviewerId : ObjectId) (o : Order.IOrder) :
    Order.status o = Order.PENDING_REVIEW ->
    activeReviewer s reviewerId = true ->
    order_write env s (Ledger.AssignReviewer orderId reviewerId) orderId o
      (Order.pre_save (now env)
         (Order.set_assignedAt (Some (now env))
            (Order.set_status Order.ASSIGNED
               (Order.set_reviewerId (Some reviewerId) o))))
| write_status (orderId : ObjectId) (st : Order.OrderStatus) (o : Order.IOrder) :
    order_write env s (Ledger.UpdateOrderStatus orderId st) orderId o
      (Order.pre_save (now env)
         (if Order.status_eqb st Order.COMPLETED
          then Order.set_completedAt (Some (now env)) (Order.set_status st o)
          else Order.set_status st o))
| write_cancel (orderId : ObjectId) (o : Order.IOrder) :
    Order.status o <> Order.COMPLETED ->
    order_write env s (Ledger.CancelOrder orderId) orderId o
      (Order.pre_save (now env) (Order.set_status Order.CANCELLED o)).


(** ** The payment ledger as a labelled transition system *)

Module PaymentLifecycle.

Inductive Action : Type := COMPLETE | FAIL | REFUND | CANCEL | RETRY.

Inductive Op : Type :=
| Complete (data : PaymentService.CompleteData)
| Fail (reason : option string)
| Refund (data : PaymentService.RefundData)
| Cancel
| Retry.

Definition action_of (op : Op) : Action :=
  match op with
  | Complete _ => COMPLETE
  | Fail _ => FAIL
  | Refund _ => REFUND
  | Cancel => CANCEL
  | Retry => RETRY
  end.

Definition perform (env : Env) (id : ObjectId) (op : Op) : M Payment.IPayment :=
  match op with
  | Complete data => PaymentService.completePayment env id data
  | Fail reason => PaymentService.failPayment env id reason
  | Refund data => PaymentService.refundPayment env id data
  | Cancel => PaymentService.cancelPayment env id
  | Retry => PaymentService.retryFailedPayment env id
  end.

(** The stored status of payment [id] changes from [st] to [st'] when some
    ledger operation with action [a] is applied to it in some store. *)
Definition moves (st : Payment.PaymentStatus) (a : Action) (st' : Payment.PaymentStatus)
    : Prop :=
  exists (env : Env) (id : ObjectId) (op : Op) (s : Store) (p p' : Payment.IPayment),
    action_of op = a /\
    payments s !! id = Some p /\ Payment.status p = st /\
    payments (final (perform env id op s)) !! id = Some p' /\
    Payment.status p' = st' /\
    st <> st'.

(** The guards of the five operations. *)
Inductive transition
  : Payment.PaymentStatus -> Action -> Payment.PaymentStatus -> Prop :=
| t_complete (st : Payment.PaymentStatus) :
    st <> Payment.COMPLETED -> transition st COMPLETE Payment.COMPLETED
| t_fail (st : Payment.PaymentStatus) :
    st <> Payment.FAILED -> transition st FAIL Payment.FAILED
| t_refund : transition Payment.COMPLETED REFUND Payment.REFUNDED
| t_cancel : transition Payment.PENDING CANCEL Payment.CANCELLED
| t_retry : transition Payment.FAILED RETRY Payment.PENDING.

End PaymentLifecycle.

(** * Further operations of the services *)

(** ** Consultation reminders ([setReminder], [findForReminders],
    [sendReminder]) *)

Module ConsultationReminders.

(** ['24h' | '1h' | '15min']. *)
Inductive ReminderType : Type := R24h | R1h | R15min.

Definition sent (type : ReminderType) (r : Consultation.Reminders) : bool :=
  match type with
  | R24h => Consultation.sent24h r
  | R1h => Consultation.sent1h r
  | R15min => Consultation.sent15min r
  end.

(** [ConsultationSchema.methods.setReminder]. *)
Definition setReminder (env : Env) (id : ObjectId) (c : Consultation.IConsultation)
    (type : ReminderType) : M Consultation.IConsultation :=
  let r := Consultation.reminders c in
  let r' := match type with
            | R24h => Consultation.mkReminders true (Consultation.sent1h r)
                        (Consultation.sent15min r)
            | R1h => Consultation.mkReminders (Consultation.sent24h r) true
                       (Consultation.sent15min r)
            | R15min => Consultation.mkReminders (Consultation.sent24h r)
                          (Consultation.sent1h r) true
            end in
  Consultations.save env false id (Consultation.set_reminders r' c).

(** The [reminders] flag a lead time in minutes selects; [None] is the
    [null] of the source. *)
Definition reminderField (timeInMinutes : Z) : option ReminderType :=
  if timeInMinutes =? 1440 then Some R24h
  else if timeInMinutes =? 60 then Some R1h
  else if timeInMinutes =? 15 then Some R15min
  else None.

(** The lead time the service announces for a reminder type. *)
Definition leadTime (type : ReminderType) : Z :=
  match type with R24h => 1440 | R1h => 60 | R15min => 15 end.

(** [ConsultationSchema.statics.findForReminders]; the target time is the
    clock moved by [timeInMinutes] minutes. *)
Definition findForReminders (env : Env) (timeInMinutes : Z) (s : Store)
    : list (ObjectId * Consultation.IConsultation) :=
  let targetTime := now env + minutes timeInMinutes in
  match reminderField timeInMinutes with
  | None => []
  | Some type =>
      List.filter
        (fun kv =>
           (targetTime - 5 * 60000 <=? Consultation.scheduledDate (snd kv))
           && (Consultation.scheduledDate (snd kv) <=? targetTime + 5 * 60000)
           && Consultation.status_eqb (Consultation.status (snd kv)) Consultation.SCHEDULED
           && negb (sent type (Consultation.reminders (snd kv))))
        (map_to_list (consultations s))
  end.

(** [ConsultationService.sendReminder].  The consultation is loaded with
    both participants populated; a participant whose user document is
    missing is populated as [null], which the required validator of the
    path rejects when [setReminder] saves. *)
Definition sendReminder (env : Env) (id : ObjectId) (type : ReminderType) : M bool :=
  let! found := Consultations.findById id in
  let! consultation := orThrow found ConsultationNotFound in
  let! customer := gets (fun s => users s !! Consultation.customerId consultation) in
  let! reviewer := gets (fun s => users s !! Consultation.reviewerId consultation) in
  match customer, reviewer with
  | Some _, Some _ =>
      let! reminded := setReminder env id consultation type in
      Notifications.insertMany
        [Notification.mk (Consultation.customerId reminded) (Consultation.orderId reminded)
           "Consultation Reminder" Notification.REMINDER;
         Notification.mk (Consultation.reviewerId reminded) (Consultation.orderId reminded)
           "Consultation Reminder" Notification.REMINDER] ;;
      ret true
  | _, _ => throw ValidationError
  end.

End ConsultationReminders.

(** ** Messages of the operations below

    [Known e] is one of the messages of [Error]; the others are thrown by
    the creation and deletion paths only. *)

Inductive Failure : Type :=
| Known (e : Error)
| CustomerNotFound              (* 'Customer not found' *)
| UploaderNotFound              (* 'Uploader not found' *)
| FileSizeLimit                 (* 'File size exceeds 50MB limit' *)
| DocumentNotFound              (* 'Document not found' *)
| UnauthorizedDelete            (* 'Unauthorized to delete this document' *)
| ReviewerNotAssigned           (* 'Reviewer is not assigned to this order' *)
| ReviewerInvalid               (* 'Invalid reviewer' *)
| CannotDeleteCompletedReview.  (* 'Cannot delete completed review' *)

Inductive result (A : Type) : Type :=
| Ok (a : A)
| Fail (f : Failure).
Arguments Ok {A} a.
Arguments Fail {A} f.

Definition F (A : Type) : Type := Store -> result A * Store.

Definition ok {A : Type} (a : A) : F A := fun s => (Ok a, s).
Definition fail {A : Type} (f : Failure) : F A := fun s => (Fail f, s).
Definition lift {A : Type} (m : M A) : F A :=
  fun s => match m s with
           | (Return a, s') => (Ok a, s')
           | (Throw e, s') => (Fail (Known e), s')
           end.
Definition fbind {A B : Type} (m : F A) (k : A -> F B) : F B :=
  fun s => match m s with
           | (Ok a, s') => k a s'
           | (Fail f, s') => (Fail f, s')
           end.

Notation "'let*' x ':=' m 'in' k" := (fbind m (fun x => k))
  (at level 10, x pattern, m at level 100, k at level 200).

(** ** Documents: upload, soft delete and restore *)

Module DocumentLifecycle.

Definition set_isActive (v : bool) (d : Document.IDocument) : Document.IDocument :=
  Document.mk (Document.orderId d) (Document.filePath d) (Document.fileSize d)
    (Document.uploadedBy d) v (Document.downloadCount d).

(** [DocumentSchema.methods.softDelete] and [restore]. *)
Definition softDelete (env : Env) (id : ObjectId) (d : Document.IDocument)
    : M Document.IDocument :=
  Documents.save env id (set_isActive false d).


Record UploadData : Type := mkUpload {
  orderId : ObjectId;
  filePath : string;
  fileSize : Z;
  uploadedBy : ObjectId
}.

(** [new Document(documentData)] with the schema defaults. *)
Definition newDocument (data : UploadData) : Document.IDocument :=
  Document.mk (orderId data) (filePath data) (fileSize data) (uploadedBy data) true 0.

(** [document.save()] on a new document. *)
Definition create (env : Env) (d : Document.IDocument) : M Document.IDocument :=
  let! existing := gets (fun s => documents s !! newId env) in
  if is_set existing then throw DuplicateKey else Documents.save env (newId env) d.

Definition recipients (order : Order.IOrder) (data : UploadData) : list ObjectId :=
  Order.customerId order ::
  match Order.reviewerId order with
  | Some r => if negb (String.eqb r (uploadedBy data)) then [r] else []
  | None => []
  end.

(** [DocumentService.uploadDocument]. *)
Definition uploadDocument (env : Env) (documentData : UploadData) : F Document.IDocument :=
  let* found := lift (Orders.findById (orderId documentData)) in
  match found with
  | None => fail (Known OrderNotFound)
  | Some order =>
      let* uploader := lift (gets (fun s => users s !! uploadedBy documentData)) in
      if negb (is_set uploader) then fail UploaderNotFound
      else if Document.maxFileSize <? fileSize documentData then fail FileSizeLimit
      else
        let* savedDocument := lift (create env (newDocument documentData)) in
        let* _ := lift (Notifications.insertMany
                          (List.map (fun userId =>
                                       Notification.mk userId (orderId documentData)
                                         "Document Uploaded" Notification.DOCUMENT_UPLOADED)
                                    (recipients order documentData))) in
        ok savedDocument
  end.

(** [DocumentService.deleteDocument].  The order is populated into the
    document; when it is missing, reading [order.customerId] raises a
    TypeError unless the uploader test has already decided the condition,
    and the save then fails on the required [orderId].  Removing the
    physical file is attempted afterwards and its failure is ignored. *)
Definition deleteDocument (env : Env) (id userId : ObjectId) : F bool :=
  let* found := lift (gets (fun s => documents s !! id)) in
  match found with
  | None => fail DocumentNotFound
  | Some document =>
      let* populated := lift (Orders.findById (Document.orderId document)) in
      let proceed : F bool :=
        match populated with
        | None => fail (Known ValidationError)
        | Some _ =>
            let* _ := lift (softDelete env id document) in
            ok true
        end in
      if negb (String.eqb (Document.uploadedBy document) userId) then
        match populated with
        | None => fail (Known TypeError)
        | Some order =>
            if negb (String.eqb (Order.customerId order) userId)
               && match Order.reviewerId order with
                  | Some r => negb (String.eqb r userId)
                  | None => false
                  end
            then fail UnauthorizedDelete
            else proceed
        end
      else proceed
  end.


End DocumentLifecycle.

(** ** Orders and reviews: creation and deletion *)

Module ReviewLifecycle.



Record ReviewData : Type := mkReviewData {
  orderId : ObjectId;
  reviewerId : ObjectId
}.

(** [ReviewService.createReview]. *)
Definition createReview (env : Env) (reviewData : ReviewData) : F Review.IReview :=
  let* found := lift (Orders.findById (orderId reviewData)) in
  match found with
  | None => fail (Known OrderNotFound)
  | Some order =>
      if match Order.reviewerId order with
         | Some r => negb (String.eqb r (reviewerId reviewData))
         | None => true
         end
      then fail ReviewerNotAssigned
      else
        let* reviewer := lift (gets (fun s => users s !! reviewerId reviewData)) in
        if match reviewer with
           | Some u => negb (User.isReviewer u)
           | None => true
           end
        then fail ReviewerInvalid
        else
          let* existing := lift (Reviews.findById (newId env)) in
          if is_set existing then fail (Known DuplicateKey)
          else
            let* savedReview :=
              lift (Reviews.save env (newId env)
                      (Review.mk (orderId reviewData) (reviewerId reviewData) false)) in
            let* _ := lift (Notifications.create
                              (Notification.mk (Order.customerId order) (orderId reviewData)
                                 "Review Available" Notification.REVIEW_COMPLETED)) in
            ok savedReview
  end.

(** [ReviewService.deleteReview]. *)
Definition deleteReview (id : ObjectId) : F bool :=
  let* found := lift (Reviews.findById id) in
  match found with
  | None => fail (Known ReviewNotFound)
  | Some review =>
      if Review.isComplete review then fail CannotDeleteCompletedReview
      else
        let* _ := lift (modify (set_reviews (delete id))) in
        ok true
  end.

End ReviewLifecycle.

(** ** Verification tokens

    [identifier], [token] and [type] are strings the rules below do not
    read; a token is kept under its [_id]. *)

Module VerificationToken.

Record IVerificationToken : Type := mk {
  expires : Date;
  attempts : Z
}.

Inductive TokenError : Type :=
| TokenValidation       (* a schema validator rejects the document *)
| MaxAttemptsError      (* pre-save: 'Maximum verification attempts reached' *)
| TokenExpired          (* verify: 'Token has expired' *)
| MaxAttemptsReached    (* verify: 'Maximum verification attempts reached' *)
| TokenDuplicate.       (* the [_id] is taken *)

Abbreviation Tokens := (gmap string IVerificationToken).

(** Schema validators: [expires] must satisfy [date > new Date()],
    [attempts] has [max: 5]. *)
Definition validate (now : Date) (t : IVerificationToken) : bool :=
  (now <? expires t) && (attempts t <=? 5).


(** [token.save()]: validators, the pre-save hook, the write.  [now] is the
    clock when the validators run. *)
Definition save (now : Date) (id : ObjectId) (t : IVerificationToken) (m : Tokens)
    : option TokenError * Tokens :=
  if validate now t then
    if 5 <=? attempts t then (Some MaxAttemptsError, m)
    else (None, <[id := t]> m)
  else (Some TokenValidation, m).

(** [VerificationToken.create(doc)]. *)
Definition create (now : Date) (id : ObjectId) (t : IVerificationToken) (m : Tokens)
    : option TokenError * Tokens :=
  if is_set (m !! id) then (Some TokenDuplicate, m) else save now id t m.

Definition hours (n : Z) : Z := n * 3600000.

(** [statics.createToken]: [t0] is the clock when the expiry is computed,
    [now] the clock when the document is validated. *)
Definition createToken (t0 now : Date) (id : ObjectId) (expiryHours : Z) (m : Tokens)
    : option TokenError * Tokens :=
  create now id (mk (t0 + hours expiryHours) 0) m.


(** [methods.incrementAttempts]. *)
Definition incrementAttempts (now : Date) (id : ObjectId) (t : IVerificationToken)
    (m : Tokens) : option TokenError * Tokens :=
  save now id (mk (expires t) (attempts t + 1)) m.

(** [methods.invalidate]: [t0] is the clock read by the assignment, [now]
    the clock when the validators run. *)
Definition invalidate (t0 now : Date) (id : ObjectId) (t : IVerificationToken)
    (m : Tokens) : option TokenError * Tokens :=
  save now id (mk t0 (attempts t)) m.

(** [statics.cleanExpired]: [deleteMany({ expires: { $lt: new Date() } })]. *)
Definition cleanExpired (now : Date) (m : Tokens) : Tokens :=
  filter (fun kv : string * IVerificationToken => ~ (expires (snd kv) < now)) m.

(** The ways the code writes the token collection; a method request loads
    the token by id first and does nothing when it is absent. *)
Inductive Request : Type :=
| Create (id : ObjectId) (t : IVerificationToken)
| CreateToken (t0 : Date) (id : ObjectId) (expiryHours : Z)
| IncrementAttempts (id : ObjectId)
| Invalidate (t0 : Date) (id : ObjectId)
| CleanExpired
| Use (id : ObjectId).      (* the adapter's [findOneAndDelete] *)

Definition handle (now : Date) (req : Request) (m : Tokens) : Tokens :=
  match req with
  | Create id t => snd (create now id t m)
  | CreateToken t0 id h => snd (createToken t0 now id h m)
  | IncrementAttempts id =>
      match m !! id with
      | Some t => snd (incrementAttempts now id t m)
      | None => m
      end
  | Invalidate t0 id =>
      match m !! id with
      | Some t => snd (invalidate t0 now id t m)
      | None => m
      end
  | CleanExpired => cleanExpired now m
  | Use id => delete id m
  end.

Fixpoint run (l : list (Date * Request)) (m : Tokens) : Tokens :=
  match l with
  | [] => m
  | (now, req) :: l' => run l' (handle now req m)
  end.

End VerificationToken.

(** The permission test of [deleteDocument]: the caller is not the uploader,
    not the order's customer, and the order has a reviewer other than the
    caller. *)
Definition deleteDenied (d : Document.IDocument) (o : Order.IOrder) (userId : ObjectId)
    : Prop :=
  Document.uploadedBy d <> userId /\
  Order.customerId o <> userId /\
  exists r, Order.reviewerId o = Some r /\ r <> userId.

(** * Properties *)

(** ** Auxiliary facts about the middleware *)

Ltac unfold_monad :=
  unfold bind, ret, throw, gets, modify, orThrow, when, final in *; simpl in *.

Ltac simplify_goal := simplify_eq /=.

Ltac run_monad :=
  repeat first [ progress unfold_monad | case_match | progress simplify_goal ].

Lemma order_status_eqb_eq a b : Order.status_eqb a b = true <-> a = b.
Proof. destruct a, b; simpl; split; intros H; congruence. Qed.

Lemma payment_status_eqb_eq a b : Payment.status_eqb a b = true <-> a = b.
Proof. destruct a, b; simpl; split; intros H; congruence. Qed.

Lemma consultation_status_eqb_eq a b : Consultation.status_eqb a b = true <-> a = b.
Proof. destruct a, b; simpl; split; intros H; congruence. Qed.

Lemma payment_status_eqb_neq a b : Payment.status_eqb a b = false <-> a <> b.
Proof. destruct a, b; simpl; split; intros H; congruence. Qed.

Lemma payment_pre_save_frame t txn p :
  Payment.status (Payment.pre_save t txn p) = Payment.status p /\
  Payment.amount (Payment.pre_save t txn p) = Payment.amount p /\
  Payment.orderId (Payment.pre_save t txn p) = Payment.orderId p /\
  Payment.fee (Payment.pre_save t txn p) = Payment.fee p /\
  Payment.refundAmount (Payment.pre_save t txn p) = Payment.refundAmount p.
Proof. unfold Payment.pre_save. repeat case_match; simpl; auto. Qed.

Lemma order_pre_save_frame t o :
  Order.status (Order.pre_save t o) = Order.status o /\
  Order.paidAmount (Order.pre_save t o) = Order.paidAmount o /\
  Order.totalAmount (Order.pre_save t o) = Order.totalAmount o /\
  Order.customerId (Order.pre_save t o) = Order.customerId o /\
  Order.reviewerId (Order.pre_save t o) = Order.reviewerId o.
Proof. unfold Order.pre_save. repeat case_match; simpl; auto. Qed.


(** A saved payment that is neither completed nor failed has no side effect. *)
Lemma payment_post_save_quiet p s :
  Payment.status p <> Payment.COMPLETED -> Payment.status p <> Payment.FAILED ->
  Payments.post_save p s = (Return tt, s).
Proof.
  intros Hc Hf. unfold Payments.post_save.
  apply payment_status_eqb_neq in Hc, Hf. unfold_monad. rewrite Hc, Hf. reflexivity.
Qed.

(** C10. [cancelPayment] turns a PENDING payment into a CANCELLED one and
    writes nothing else; on a payment in any other status it throws
    'Can only cancel pending payments' and leaves the store as it was. *)
Theorem cancelPayment_pending_only (env : Env) (id : ObjectId) (s : Store)
    (p : Payment.IPayment) :
  payments s !! id = Some p ->
  (Payment.status p = Payment.PENDING -> Payment.validate p = true ->
   exists p',
     PaymentService.cancelPayment env id s = (Return p', set_payments (insert id p') s) /\
     Payment.status p' = Payment.CANCELLED /\
     Payment.amount p' = Payment.amount p /\
     Payment.orderId p' = Payment.orderId p) /\
  (Payment.status p <> Payment.PENDING ->
   PaymentService.cancelPayment env id s = (Throw OnlyPendingCancellable, s)).
Proof.
  intros Hp. split.
  - intros Hst Hv.
    exists (Payment.pre_save (now env) ("txn_" ++ token env)
              (Payment.set_status Payment.CANCELLED p)).
    destruct (payment_pre_save_frame (now env) ("txn_" ++ token env)
                (Payment.set_status Payment.CANCELLED p)) as (H1 & H2 & H3 & _).
    split; [| simpl in *; auto].
    unfold PaymentService.cancelPayment, Payments.findById, Payments.cancel, Payments.save.
    unfold_monad. rewrite Hp. simpl. rewrite Hst. simpl.
    replace (Payment.validate (Payment.set_status Payment.CANCELLED p)) with true
      by (symmetry; exact Hv).
    rewrite payment_post_save_quiet; [reflexivity | |]; rewrite H1; simpl; discriminate.
  - intros Hst.
    unfold PaymentService.cancelPayment, Payments.findById, Payments.cancel.
    unfold_monad. rewrite Hp. simpl.
    apply payment_status_eqb_neq in Hst. rewrite Hst. reflexivity.
Qed.

(** A concrete instance of [cancelPayment_pending_only]. *)
Lemma cancelPayment_pending_only_witness :
  exists p',
    PaymentService.cancelPayment (env_at 5000 "x") "p1"
      (storeWithPayment (sampleOrder Order.ASSIGNED (Some "r1") 0 None)
         (samplePayment Payment.PENDING 100))
    = (Return p',
       set_payments (insert "p1" p')
         (storeWithPayment (sampleOrder Order.ASSIGNED (Some "r1") 0 None)
            (samplePayment Payment.PENDING 100))) /\
    Payment.status p' = Payment.CANCELLED /\
    Payment.amount p' = Payment.amount (samplePayment Payment.PENDING 100) /\
    Payment.orderId p' = Payment.orderId (samplePayment Payment.PENDING 100).
Proof.
  apply (cancelPayment_pending_only (env_at 5000 "x") "p1"
           (storeWithPayment (sampleOrder Order.ASSIGNED (Some "r1") 0 None)
              (samplePayment Payment.PENDING 100))
           (samplePayment Payment.PENDING 100)); reflexivity.
Defined.

(** ** Review completion *)

(** C6. [completeReview] on a review that is already complete throws 'Review
    is already completed' and writes nothing; on a review that is not yet
    complete it returns the review with [isComplete = true], the parent order
    is left with status COMPLETED and [completedAt = now], and a second call
    throws 'Review is already completed'. *)
Theorem completeReview_once (env : Env) (id : ObjectId) (s : Store) (r : Review.IReview) :
  reviews s !! id = Some r ->
  (Review.isComplete r = true ->
   ReviewService.completeReview env id s = (Throw ReviewAlreadyCompleted, s) /\
   kind_of ReviewAlreadyCompleted = AlreadyComplete) /\
  (Review.isComplete r = false ->
   exists r' s',
     ReviewService.completeReview env id s = (Return r', s') /\
     Review.isComplete r' = true /\
     reviews s' !! id = Some r' /\
     (forall o, orders s !! Review.orderId r = Some o ->
        exists o', orders s' !! Review.orderId r = Some o' /\
                   Order.status o' = Order.COMPLETED /\
                   Order.completedAt o' = Some (now env)) /\
     (forall env', ReviewService.completeReview env' id s'
                   = (Throw ReviewAlreadyCompleted, s'))).
Proof.
  intros Hr. split.
  - intros Hc. split; [| reflexivity].
    unfold ReviewService.completeReview, Reviews.findById. unfold_monad.
    rewrite Hr. simpl. rewrite Hc. reflexivity.
  - intros Hc.
    unfold ReviewService.completeReview, Reviews.findById, Reviews.save, Reviews.post_save,
      Orders.findByIdAndUpdate.
    unfold_monad. rewrite Hr. simpl. rewrite Hc. simpl.
    eexists _, _. split; [reflexivity |]. simpl.
    split; [reflexivity |]. split; [apply lookup_insert_eq |].
    split.
    + intros o Ho. rewrite lookup_alter_eq, Ho. simpl. eexists. split; [reflexivity |]. auto.
    + intros env'. rewrite lookup_insert_eq. reflexivity.
Qed.

(** A concrete instance of [completeReview_once]. *)
Lemma completeReview_once_witness :
  exists r' s',
    ReviewService.completeReview (env_at 7000 "x") "v1"
      (storeWithReview (sampleOrder Order.IN_PROGRESS (Some "r1") 0 None)
         (Review.mk "o1" "r1" false)) = (Return r', s') /\
    Review.isComplete r' = true /\
    reviews s' !! "v1" = Some r' /\
    (forall o, (<["o1" := sampleOrder Order.IN_PROGRESS (Some "r1") 0 None]> ∅ : gmap string Order.IOrder)
                 !! "o1" = Some o ->
       exists o', orders s' !! "o1" = Some o' /\
                  Order.status o' = Order.COMPLETED /\
                  Order.completedAt o' = Some 7000) /\
    (forall env', ReviewService.completeReview env' "v1" s'
                  = (Throw ReviewAlreadyCompleted, s')).
Proof.
  apply (completeReview_once (env_at 7000 "x") "v1"
           (storeWithReview (sampleOrder Order.IN_PROGRESS (Some "r1") 0 None)
              (Review.mk "o1" "r1" false))
           (Review.mk "o1" "r1" false)); reflexivity.
Defined.

(** ** Reviewer assignment *)

(** C7, as stated, fails: on an order that is not PENDING_REVIEW, an
    assignment to a reviewer id that does not resolve is rejected with
    'Invalid or inactive reviewer', which is not an InvalidState error. *)
Lemma assignReviewer_unknown_reviewer_counterexample :
  orders (storeWithOrder (sampleOrder Order.ASSIGNED (Some "r1") 0 None)) !! "o1"
    = Some (sampleOrder Order.ASSIGNED (Some "r1") 0 None) /\
  Order.status (sampleOrder Order.ASSIGNED (Some "r1") 0 None) <> Order.PENDING_REVIEW /\
  OrderService.assignReviewer (env_at 100 "x") "o1" "nobody"
    (storeWithOrder (sampleOrder Order.ASSIGNED (Some "r1") 0 None))
    = (Throw InvalidOrInactiveReviewer,
       storeWithOrder (sampleOrder Order.ASSIGNED (Some "r1") 0 None)) /\
  kind_of InvalidOrInactiveReviewer <> InvalidState.
Proof. repeat split; [discriminate | discriminate]. Qed.

(** C7, amended. On an order that is not PENDING_REVIEW, [assignReviewer]
    always throws and leaves the store unmodified; the error is
    'Order cannot be assigned at this time' (InvalidState) when the reviewer
    id resolves to an active reviewer, and 'Invalid or inactive reviewer'
    (InvalidReviewer) when it does not. *)
Theorem assignReviewer_requires_pending (env : Env) (s : Store) (orderId reviewerId : ObjectId)
    (o : Order.IOrder) :
  orders s !! orderId = Some o ->
  Order.status o <> Order.PENDING_REVIEW ->
  exists e,
    OrderService.assignReviewer env orderId reviewerId s = (Throw e, s) /\
    (activeReviewer s reviewerId = true ->
       e = OrderCannotBeAssigned /\ kind_of e = InvalidState) /\
    (activeReviewer s reviewerId = false ->
       e = InvalidOrInactiveReviewer /\ kind_of e = InvalidReviewer).
Proof.
  intros Ho Hst.
  assert (Hcan : Order.canBeAssigned o = false).
  { unfold Order.canBeAssigned. destruct (Order.status o); simpl; congruence. }
  unfold OrderService.assignReviewer, activeReviewer, Orders.findById. unfold_monad.
  destruct (users s !! reviewerId) as [r |]; simpl.
  - destruct (User.isActive r && User.isReviewer r); simpl.
    + rewrite Ho. simpl. rewrite Hcan. simpl.
      exists OrderCannotBeAssigned. repeat split; congruence.
    + exists InvalidOrInactiveReviewer. repeat split; congruence.
  - exists InvalidOrInactiveReviewer. repeat split; congruence.
Qed.

(** A concrete instance of [assignReviewer_requires_pending]. *)
Lemma assignReviewer_requires_pending_witness :
  exists e,
    OrderService.assignReviewer (env_at 100 "x") "o1" "r1"
      (storeWithOrder (sampleOrder Order.COMPLETED (Some "r1") 0 (Some 50)))
    = (Throw e, storeWithOrder (sampleOrder Order.COMPLETED (Some "r1") 0 (Some 50))) /\
    (activeReviewer (storeWithOrder (sampleOrder Order.COMPLETED (Some "r1") 0 (Some 50))) "r1"
       = true -> e = OrderCannotBeAssigned /\ kind_of e = InvalidState) /\
    (activeReviewer (storeWithOrder (sampleOrder Order.COMPLETED (Some "r1") 0 (Some 50))) "r1"
       = false -> e = InvalidOrInactiveReviewer /\ kind_of e = InvalidReviewer).
Proof.
  apply (assignReviewer_requires_pending (env_at 100 "x")
           (storeWithOrder (sampleOrder Order.COMPLETED (Some "r1") 0 (Some 50)))
           "o1" "r1" (sampleOrder Order.COMPLETED (Some "r1") 0 (Some 50))).
  - reflexivity.
  - simpl. discriminate.
Defined.

(** ** The payment ledger *)

Lemma num_or_idem (a : option Z) (d : Z) : num_or (Some (num_or a d)) d = num_or a d.
Proof.
  unfold num_or. destruct a as [n |]; simpl.
  - destruct (truthy_num n) eqn:Hn; simpl; [rewrite Hn; reflexivity |].
    destruct (truthy_num d); reflexivity.
  - destruct (truthy_num d); reflexivity.
Qed.

(** [save] of a payment that is neither completed nor failed only writes the
    payment. *)
Lemma payments_save_quiet (env : Env) (id : ObjectId) (p : Payment.IPayment) (s : Store) :
  Payment.status p <> Payment.COMPLETED -> Payment.status p <> Payment.FAILED ->
  Payments.save env id p s =
    if Payment.validate p
    then (Return (Payment.pre_save (now env) ("txn_" ++ token env) p),
          set_payments (insert id (Payment.pre_save (now env) ("txn_" ++ token env) p)) s)
    else (Throw ValidationError, s).
Proof.
  intros Hc Hf. unfold Payments.save.
  destruct (Payment.validate p); [| reflexivity].
  unfold_monad. rewrite payment_post_save_quiet; [reflexivity | |];
    destruct (payment_pre_save_frame (now env) ("txn_" ++ token env) p) as (-> & _);
    assumption.
Qed.

(** C2. On a payment that is not COMPLETED, [refundPayment] throws 'Only
    completed payments can be refunded' (InvalidState); on a COMPLETED payment
    and a refund amount above the payment's amount it throws 'Refund amount
    cannot exceed original payment amount' (InvalidAmount); both leave the
    store, hence the payment and its order, unmodified.  When [refundPayment]
    returns, the stored payment is REFUNDED with the refund amount recorded,
    and the parent order's [paidAmount] has gone down by the refund amount,
    floored at 0. *)
Theorem refundPayment_rules (env : Env) (id : ObjectId) (data : PaymentService.RefundData)
    (s : Store) (p : Payment.IPayment) :
  payments s !! id = Some p ->
  0 <= Payment.amount p ->
  (Payment.status p <> Payment.COMPLETED ->
   PaymentService.refundPayment env id data s = (Throw OnlyCompletedRefundable, s) /\
   kind_of OnlyCompletedRefundable = InvalidState) /\
  (Payment.status p = Payment.COMPLETED ->
   forall a, PaymentService.amount data = Some a -> Payment.amount p < a ->
   PaymentService.refundPayment env id data s = (Throw RefundExceedsAmount, s) /\
   kind_of RefundExceedsAmount = InvalidAmount) /\
  (forall p' s',
   PaymentService.refundPayment env id data s = (Return p', s') ->
   Payment.status p' = Payment.REFUNDED /\
   Payment.refundAmount p' = Some (num_or (PaymentService.amount data) (Payment.amount p)) /\
   payments s' !! id = Some p' /\
   forall o, orders s !! Payment.orderId p = Some o ->
     exists o', orders s' !! Payment.orderId p = Some o' /\
       Order.paidAmount o' =
         Z.max 0 (Order.paidAmount o
                  - num_or (PaymentService.amount data) (Payment.amount p))).
Proof.
  intros Hp Hamt. split; [| split].
  - intros Hst. split; [| reflexivity].
    unfold PaymentService.refundPayment, Payments.findById. unfold_monad.
    rewrite Hp. simpl. apply payment_status_eqb_neq in Hst. rewrite Hst. reflexivity.
  - intros Hst a Ha Hgt. split; [| reflexivity].
    unfold PaymentService.refundPayment, Payments.findById. unfold_monad.
    rewrite Hp. simpl. rewrite Hst. simpl. rewrite Ha. unfold num_or, truthy_num.
    replace (a =? 0) with false by (symmetry; apply Z.eqb_neq; lia). simpl.
    replace (Payment.amount p <? a) with true by (symmetry; apply Z.ltb_lt; lia).
    reflexivity.
  - intros p' s'.
    unfold PaymentService.refundPayment, Payments.findById, bind at 1 2. unfold_monad.
    rewrite Hp. simpl.
    destruct (Payment.status_eqb (Payment.status p) Payment.COMPLETED) eqn:Hst; simpl;
      [| discriminate].
    apply payment_status_eqb_eq in Hst. rewrite Hst. simpl.
    destruct (Payment.amount p <? _); [discriminate |].
    unfold Payments.refund. rewrite payments_save_quiet by (simpl; discriminate).
    change (Payment.amount (Payment.set_status Payment.REFUNDED p)) with (Payment.amount p).
    rewrite num_or_idem.
    set (r := num_or (PaymentService.amount data) (Payment.amount p)).
    set (q := Payment.set_refundedAt _ _).
    destruct (Payment.validate q); [| discriminate].
    destruct (payment_pre_save_frame (now env) ("txn_" ++ token env) q)
      as (Hs & _ & Ho & _ & Hr).
    unfold Orders.findById. unfold_monad. rewrite Ho. simpl.
    destruct (orders s !! Payment.orderId p) as [o |] eqn:Hord.
    + unfold Orders.save. destruct (Order.validate _); [| discriminate].
      unfold_monad. intros H. injection H as <- <-. simpl.
      split; [exact Hs |]. split; [exact Hr |]. split; [apply lookup_insert_eq |].
      intros o0 Ho0. injection Ho0 as <-. rewrite lookup_insert_eq.
      eexists. split; [reflexivity |].
      destruct (order_pre_save_frame (now env)
                  (Order.set_paidAmount (Z.max 0 (Order.paidAmount o - r)) o))
        as (_ & -> & _). reflexivity.
    + intros H. injection H as <- <-. simpl.
      split; [exact Hs |]. split; [exact Hr |]. split; [apply lookup_insert_eq |].
      intros o0 Ho0. discriminate.
Qed.

(** A concrete instance of [refundPayment_rules]. *)
Lemma refundPayment_rules_witness :
  exists p' s',
    PaymentService.refundPayment (env_at 9000 "x") "p1"
      (PaymentService.mkRefundData (Some 30) None None)
      (storeWithPayment (sampleOrder Order.ASSIGNED (Some "r1") 100 None)
         (samplePayment Payment.COMPLETED 100)) = (Return p', s') /\
    Payment.status p' = Payment.REFUNDED /\
    Payment.refundAmount p' = Some 30 /\
    exists o', orders s' !! "o1" = Some o' /\ Order.paidAmount o' = 70.
Proof.
  pose proof (refundPayment_rules (env_at 9000 "x") "p1"
                (PaymentService.mkRefundData (Some 30) None None)
                (storeWithPayment (sampleOrder Order.ASSIGNED (Some "r1") 100 None)
                   (samplePayment Payment.COMPLETED 100))
                (samplePayment Payment.COMPLETED 100) eq_refl) as H.
  destruct H as (_ & _ & H); [simpl; lia |].
  destruct (PaymentService.refundPayment _ _ _ _) as [[p' | e] s'] eqn:E;
    [| vm_compute in E; discriminate].
  exists p', s'. split; [reflexivity |].
  destruct (H p' s' eq_refl) as (Hs & Hr & _ & Ho).
  split; [exact Hs |]. split; [exact Hr |].
  destruct (Ho _ eq_refl) as (o' & Ho' & Hpaid).
  exists o'. split; [exact Ho' | exact Hpaid].
Defined.

(** C3: the net amount after completion.  A payment of 100 created through
    [createPayment] and completed with a fee of 3 ends COMPLETED with
    [processedAt = now] and fee 3, but its [netAmount] is still 100 and not
    [amount - fee = 97]: the pre-save hook only derives [netAmount] while it
    is unset, and the save at creation has already set it to the amount. *)
Theorem completePayment_netAmount_stale :
  exists p' s',
    PaymentService.completePayment (env_at 2000 "x") "p1"
      (PaymentService.mkCompleteData (Some "ch_1") (Some 3))
      (final (PaymentService.createPayment (env_at 1000 "p1") "o1" 100
                (storeWithOrder (sampleOrder Order.ASSIGNED (Some "r1") 0 None))))
    = (Return p', s') /\
    payments s' !! "p1" = Some p' /\
    Payment.status p' = Payment.COMPLETED /\
    Payment.processedAt p' = Some 2000 /\
    Payment.fee p' = 3 /\
    Payment.netAmount p' = Some 100 /\
    Payment.amount p' - Payment.fee p' = 97.
Proof.
  eexists _, _. split; [vm_compute; reflexivity |].
  repeat split; reflexivity.
Qed.

(** What does hold of a completion: the guard, the status, the processing
    date, the ledger side effect and the notification.  The last conjunct is
    the net amount the pre-save hook leaves. *)
Lemma completePayment_already_completed (env : Env) (id : ObjectId)
    (data : PaymentService.CompleteData) (s : Store) (p : Payment.IPayment) :
  payments s !! id = Some p -> Payment.status p = Payment.COMPLETED ->
  PaymentService.completePayment env id data s = (Throw PaymentAlreadyCompleted, s).
Proof.
  intros Hp Hst. unfold PaymentService.completePayment, Payments.findById. unfold_monad.
  rewrite Hp. simpl. rewrite Hst. reflexivity.
Qed.

Lemma completePayment_effects (env : Env) (id : ObjectId)
    (data : PaymentService.CompleteData) (s : Store) (p : Payment.IPayment)
    (o : Order.IOrder) :
  payments s !! id = Some p -> Payment.status p <> Payment.COMPLETED ->
  Payment.validate (PaymentService.assign data p) = true ->
  orders s !! Payment.orderId p = Some o ->
  exists p' s',
    PaymentService.completePayment env id data s = (Return p', s') /\
    payments s' !! id = Some p' /\
    Payment.status p' = Payment.COMPLETED /\
    Payment.processedAt p' = Some (now env) /\
    Payment.amount p' = Payment.amount p /\
    orders s' !! Payment.orderId p
      = Some (Order.set_paidAmount (Order.paidAmount o + Payment.amount p) o) /\
    notifications s'
      = (notifications s
           ++ [Notification.mk (Order.customerId o) (Payment.orderId p)
                 "Payment Received" Notification.PAYMENT_RECEIVED])%list /\
    Payment.netAmount p'
      = if truthy_num (Payment.fee (PaymentService.assign data p))
           && negb (truthy_opt_num (Payment.netAmount p))
        then Some (Payment.amount p - Payment.fee (PaymentService.assign data p))
        else if negb (truthy_opt_num (Payment.netAmount p))
             then Some (Payment.amount p)
             else Payment.netAmount p.
Proof.
  intros Hp Hst Hv Ho.
  assert (Hq : Payment.amount (PaymentService.assign data p) = Payment.amount p /\
               Payment.orderId (PaymentService.assign data p) = Payment.orderId p /\
               Payment.netAmount (PaymentService.assign data p) = Payment.netAmount p).
  { unfold PaymentService.assign. repeat case_match; simpl; auto. }
  destruct Hq as (Ha & Hoid & Hn).
  unfold PaymentService.completePayment, Payments.findById, Payments.complete.
  unfold_monad. rewrite Hp. simpl.
  apply payment_status_eqb_neq in Hst. rewrite Hst. simpl.
  set (q := PaymentService.assign data p) in *.
  set (q3 := if truthy_opt_str _ then _ else _).
  assert (Hq3 : Payment.validate q3 = true /\ Payment.status q3 = Payment.COMPLETED /\
                Payment.amount q3 = Payment.amount p /\
                Payment.orderId q3 = Payment.orderId p /\
                Payment.processedAt q3 = Some (now env) /\
                Payment.fee q3 = Payment.fee q /\
                Payment.netAmount q3 = Payment.netAmount p).
  { subst q3. destruct (truthy_opt_str _); simpl; repeat split; auto. }
  destruct Hq3 as (Hv3 & Hs3 & Ha3 & Ho3 & Hp3 & Hf3 & Hn3).
  unfold Payments.save. rewrite Hv3.
  destruct (payment_pre_save_frame (now env) ("txn_" ++ token env) q3)
    as (Hs & Ha' & Ho' & _).
  assert (Hproc : Payment.processedAt (Payment.pre_save (now env) ("txn_" ++ token env) q3)
                  = Some (now env)).
  { unfold Payment.pre_save. repeat case_match; simpl in *; congruence. }
  assert (Hnet : Payment.netAmount (Payment.pre_save (now env) ("txn_" ++ token env) q3)
                 = if truthy_num (Payment.fee q) && negb (truthy_opt_num (Payment.netAmount p))
                   then Some (Payment.amount p - Payment.fee q)
                   else if negb (truthy_opt_num (Payment.netAmount p))
                        then Some (Payment.amount p)
                        else Payment.netAmount p).
  { unfold Payment.pre_save. rewrite Hf3, Hn3, Ha3.
    repeat case_match; simpl in *; congruence. }
  unfold Payments.post_save, Orders.findByIdAndUpdate, Orders.findById, Notifications.create.
  unfold_monad. rewrite Hs, Hs3, Ha', Ha3, Ho', Ho3. simpl.
  rewrite lookup_alter_eq, Ho. simpl.
  eexists _, _. split; [reflexivity |]. simpl.
  rewrite lookup_insert_eq, lookup_alter_eq, Ho. simpl.
  repeat split; auto; congruence.
Qed.

(** ** Document download *)

(** C8: the permission check.  On an active document whose order has no
    reviewer yet, a requester who is not the order's customer is let through:
    the download returns the file path and the counter goes from 0 to 1. *)
Theorem downloadDocument_unassigned_order_open :
  Order.customerId (sampleOrder Order.PENDING_REVIEW None 0 None) <> "u3" /\
  Order.reviewerId (sampleOrder Order.PENDING_REVIEW None 0 None) <> Some "u3" /\
  exists d' s',
    DocumentService.downloadDocument (env_at 3000 "x") "d1" "u3"
      (storeWithDocument (sampleOrder Order.PENDING_REVIEW None 0 None) sampleDocument)
    = (Return (d', "/uploads/o1/scan.pdf"), s') /\
    documents s' !! "d1" = Some d' /\
    Document.downloadCount sampleDocument = 0 /\
    Document.downloadCount d' = 1.
Proof.
  split; [discriminate |]. split; [discriminate |].
  eexists _, _. split; [vm_compute; reflexivity |].
  repeat split; reflexivity.
Qed.

(** What does hold of the permission check: a requester who is the order's
    customer or its reviewer gets the file and the counter goes up by exactly
    one; on an order that has a reviewer, any other requester is rejected and
    nothing is written. *)
Lemma downloadDocument_rules (env : Env) (id userId : ObjectId) (s : Store)
    (d : Document.IDocument) (o : Order.IOrder) :
  documents s !! id = Some d -> Document.isActive d = true ->
  orders s !! Document.orderId d = Some o ->
  (Order.customerId o <> userId ->
   (exists r, Order.reviewerId o = Some r /\ r <> userId) ->
   DocumentService.downloadDocument env id userId s = (Throw UnauthorizedDownload, s)) /\
  (Order.customerId o = userId \/ Order.reviewerId o = Some userId ->
   fs_access env (Document.filePath d) = true ->
   Document.validate d = true ->
   exists d',
     DocumentService.downloadDocument env id userId s
       = (Return (d', Document.filePath d), set_documents (insert id d') s) /\
     Document.downloadCount d' = Document.downloadCount d + 1).
Proof.
  intros Hd Hact Ho.
  unfold DocumentService.downloadDocument, Orders.findById, Documents.incrementDownloadCount,
    Documents.save.
  unfold_monad. rewrite Hd. simpl. rewrite Hact. simpl. rewrite Ho. simpl.
  split.
  - intros Hc (r & Hr & Hne). rewrite Hr.
    apply String.eqb_neq in Hc, Hne. rewrite Hc, Hne. reflexivity.
  - intros Hauth Hfs Hv.
    assert (Hcheck : negb (String.eqb (Order.customerId o) userId)
                     && match Order.reviewerId o with
                        | Some r => negb (String.eqb r userId)
                        | None => false
                        end = false).
    { destruct Hauth as [<- | ->].
      - rewrite String.eqb_refl. reflexivity.
      - rewrite String.eqb_refl. simpl. apply andb_false_r. }
    rewrite Hcheck, Hfs. simpl.
    unfold Document.validate, Document.pre_save_ok in *. simpl.
    apply andb_prop in Hv as (Hv & Hdc). apply andb_prop in Hv as (Hlo & Hhi).
    rewrite Hlo, Hhi. simpl.
    replace (0 <=? Document.downloadCount d + 1) with true by (symmetry; lia).
    replace (Document.maxFileSize <? Document.fileSize d) with false by (symmetry; lia).
    simpl. eexists. split; reflexivity.
Qed.

(** ** Consultation booking *)

(** C1: overlapping bookings.  Reviewer r1 has a SCHEDULED 60-minute
    consultation at [slotT].  A second booking for r1 at [slotT] + 30 minutes
    with duration 60 overlaps it, and the availability handler reports that
    time as booked; yet the booking route creates the consultation (its slot
    check only compares start times for equality), and so does
    [scheduleConsultation], which has no slot check. *)
Theorem booking_accepts_overlapping_slot :
  overlaps (slotT + minutes 30) 60 slotT 60 /\
  ConsultationRoute.isBooked
    (ConsultationRoute.existingConsultations
       (storeWithConsultation (sampleConsultation Consultation.SCHEDULED slotT))
       "r1" clock0 (clock0 + minutes 10080))
    (slotT + minutes 30) = true /\
  (exists c' s',
     ConsultationRoute.POST (env_at clock0 "k2") (Some "c1") overlappingBody
       (storeWithConsultation (sampleConsultation Consultation.SCHEDULED slotT))
     = (Return c', s') /\
     consultations s' !! "k2" = Some c' /\
     consultations s' !! "k1" = Some (sampleConsultation Consultation.SCHEDULED slotT) /\
     Consultation.reviewerId c' = "r1" /\
     Consultation.status c' = Consultation.SCHEDULED /\
     Consultation.scheduledDate c' = slotT + minutes 30 /\
     Consultation.duration c' = 60) /\
  (exists c' s',
     ConsultationService.scheduleConsultation (env_at clock0 "k2") overlappingData
       (storeWithConsultation (sampleConsultation Consultation.SCHEDULED slotT))
     = (Return c', s') /\
     consultations s' !! "k2" = Some c' /\
     consultations s' !! "k1" = Some (sampleConsultation Consultation.SCHEDULED slotT) /\
     Consultation.reviewerId c' = "r1" /\
     Consultation.status c' = Consultation.SCHEDULED).
Proof.
  split; [unfold overlaps, minutes, slotT; lia |].
  split; [vm_compute; reflexivity |].
  split.
  - eexists _, _. split; [vm_compute; reflexivity |]. repeat split; reflexivity.
  - eexists _, _. split; [vm_compute; reflexivity |]. repeat split; reflexivity.
Qed.

(** The slot check of the booking route does reject a second booking that
    starts at the very same time. *)
Lemma booking_rejects_same_start :
  ConsultationRoute.POST (env_at clock0 "k2") (Some "c1")
    (ConsultationRoute.mkBody "o1" "r1" slotT (Some 60))
    (storeWithConsultation (sampleConsultation Consultation.SCHEDULED slotT))
  = (Throw TimeSlotNotAvailable,
     storeWithConsultation (sampleConsultation Consultation.SCHEDULED slotT)).
Proof. vm_compute. reflexivity. Qed.

Lemma findFirst_found {A : Type} (P : ObjectId -> A -> bool) (m : gmap string A)
    (k : ObjectId) (a : A) :
  m !! k = Some a -> P k a = true -> is_set (ConsultationRoute.findFirst P m) = true.
Proof.
  intros Hk HP. unfold ConsultationRoute.findFirst.
  destruct (List.find _ _) eqn:Hfind; [reflexivity |].
  assert (Hin : In (k, a) (map_to_list m))
    by (apply list_elem_of_In, elem_of_map_to_list; exact Hk).
  pose proof (List.find_none _ _ Hfind _ Hin) as Hf. simpl in Hf. congruence.
Qed.

(** What the slot check of the booking route does reject: a booking for a
    reviewer who has an active (SCHEDULED or IN_PROGRESS) consultation that
    starts at exactly the requested time. *)
Lemma booking_same_start_rejected (env : Env) (userId : ObjectId)
    (body : ConsultationRoute.BookingBody) (s : Store) (o : Order.IOrder)
    (k : ObjectId) (c : Consultation.IConsultation) :
  orders s !! ConsultationRoute.orderId body = Some o ->
  Order.customerId o = userId ->
  consultations s !! k = Some c ->
  Consultation.reviewerId c = ConsultationRoute.reviewerId body ->
  Consultation.scheduledDate c = ConsultationRoute.scheduledDate body ->
  ConsultationRoute.isActiveStatus (Consultation.status c) = true ->
  ConsultationRoute.POST env (Some userId) body s = (Throw TimeSlotNotAvailable, s) /\
  kind_of TimeSlotNotAvailable = SlotTaken.
Proof.
  intros Ho Hcust Hc Hr Hd Hact. split; [| reflexivity].
  unfold ConsultationRoute.POST. unfold_monad.
  pose proof (findFirst_found
                (fun id o0 => String.eqb id (ConsultationRoute.orderId body)
                              && String.eqb (Order.customerId o0) userId)
                (orders s) _ _ Ho) as H1.
  cbv beta in H1. rewrite Hcust, !String.eqb_refl in H1. specialize (H1 eq_refl).
  destruct (ConsultationRoute.findFirst _ (orders s)); [| discriminate]. simpl.
  pose proof (findFirst_found
                (fun _ c0 => String.eqb (Consultation.reviewerId c0)
                               (ConsultationRoute.reviewerId body)
                             && (Consultation.scheduledDate c0
                                 =? ConsultationRoute.scheduledDate body)
                             && ConsultationRoute.isActiveStatus (Consultation.status c0))
                (consultations s) _ _ Hc) as H2.
  cbv beta in H2. rewrite Hr, Hd, String.eqb_refl, Z.eqb_refl, Hact in H2.
  specialize (H2 eq_refl).
  rewrite H2. reflexivity.
Qed.

Lemma findFirst_missing {A : Type} (P : ObjectId -> A -> bool) (m : gmap string A) :
  (forall k a, m !! k = Some a -> P k a = false) ->
  ConsultationRoute.findFirst P m = None.
Proof.
  intros H. unfold ConsultationRoute.findFirst.
  assert (Hall : forall kv, In kv (map_to_list m) -> P (fst kv) (snd kv) = false).
  { intros [k a] Hin. apply H, elem_of_map_to_list, list_elem_of_In. exact Hin. }
  induction (map_to_list m) as [| kv l IH]; simpl; [reflexivity |].
  rewrite (Hall kv) by (left; reflexivity).
  apply IH. intros kv' Hin. apply Hall. right. exact Hin.
Qed.

(** The booking route accepts every booking of the order's customer for which
    no active consultation of the reviewer starts at exactly the requested
    time, whatever intervals the reviewer's consultations cover. *)
Lemma booking_accepted_without_same_start (env : Env) (userId : ObjectId)
    (body : ConsultationRoute.BookingBody) (s : Store) (o : Order.IOrder) :
  orders s !! ConsultationRoute.orderId body = Some o ->
  Order.customerId o = userId ->
  consultations s !! newId env = None ->
  (forall k c, consultations s !! k = Some c ->
     Consultation.reviewerId c = ConsultationRoute.reviewerId body ->
     ConsultationRoute.isActiveStatus (Consultation.status c) = true ->
     Consultation.scheduledDate c <> ConsultationRoute.scheduledDate body) ->
  exists c' s',
    ConsultationRoute.POST env (Some userId) body s = (Return c', s') /\
    consultations s' = <[newId env := c']> (consultations s) /\
    Consultation.reviewerId c' = ConsultationRoute.reviewerId body /\
    Consultation.scheduledDate c' = ConsultationRoute.scheduledDate body /\
    Consultation.status c' = Consultation.SCHEDULED.
Proof.
  intros Ho Hcust Hfresh Hfree.
  unfold ConsultationRoute.POST, Consultations.findById, Notifications.create. unfold_monad.
  pose proof (findFirst_found
                (fun id o0 => String.eqb id (ConsultationRoute.orderId body)
                              && String.eqb (Order.customerId o0) userId)
                (orders s) _ _ Ho) as H1.
  cbv beta in H1. rewrite Hcust, !String.eqb_refl in H1. specialize (H1 eq_refl).
  destruct (ConsultationRoute.findFirst _ (orders s)); [| discriminate]. simpl.
  rewrite findFirst_missing.
  - simpl. rewrite Hfresh. simpl. eexists _, _. split; [reflexivity |]. simpl. auto.
  - intros k c Hc.
    destruct (String.eqb (Consultation.reviewerId c) (ConsultationRoute.reviewerId body))
      eqn:Hr; simpl; [| reflexivity].
    destruct (ConsultationRoute.isActiveStatus (Consultation.status c)) eqn:Hact;
      [| apply andb_false_r].
    apply String.eqb_eq in Hr.
    rewrite andb_true_r. apply Z.eqb_neq. eauto.
Qed.

(** [scheduleConsultation] never answers with a slot conflict. *)
Lemma scheduleConsultation_no_slot_check (env : Env)
    (data : ConsultationService.ScheduleData) (s : Store) (e : Error) :
  fst (ConsultationService.scheduleConsultation env data s) = Throw e ->
  kind_of e <> SlotTaken.
Proof.
  unfold ConsultationService.scheduleConsultation, Consultations.create,
    Consultations.findById, Consultations.save, Consultations.post_save, Orders.findById.
  intros H. run_monad; discriminate.
Qed.

(** ** The completion date of an order *)


(** ** What the ledger and the order controller write into orders *)

Lemma payments_save_orders (env : Env) (id : ObjectId) (p : Payment.IPayment) (s : Store) :
  orders (final (Payments.save env id p s)) =
    if Payment.validate p && Payment.status_eqb (Payment.status p) Payment.COMPLETED
    then alter (fun o => Order.set_paidAmount (Order.paidAmount o + Payment.amount p) o)
           (Payment.orderId p) (orders s)
    else orders s.
Proof.
  unfold Payments.save.
  destruct (Payment.validate p); simpl; [| reflexivity].
  destruct (payment_pre_save_frame (now env) ("txn_" ++ token env) p)
    as (Hs & Ha & Ho & _).
  unfold Payments.post_save, Orders.findByIdAndUpdate, Orders.findById, Notifications.create.
  unfold_monad. rewrite Hs, Ha, Ho.
  destruct (Payment.status p); simpl; try reflexivity; run_monad; reflexivity.
Qed.

Lemma payments_save_outcome (env : Env) (id : ObjectId) (p : Payment.IPayment) (s : Store) :
  fst (Payments.save env id p s) =
    if Payment.validate p
    then Return (Payment.pre_save (now env) ("txn_" ++ token env) p)
    else Throw ValidationError.
Proof.
  unfold Payments.save.
  destruct (Payment.validate p); simpl; [| reflexivity].
  unfold Payments.post_save, Orders.findByIdAndUpdate, Orders.findById, Notifications.create.
  run_monad; reflexivity.
Qed.

Lemma orders_save_final (env : Env) (id : ObjectId) (o : Order.IOrder) (s : Store) :
  orders (final (Orders.save env id o s)) = orders s \/
  orders (final (Orders.save env id o s)) = <[id := Order.pre_save (now env) o]> (orders s).
Proof.
  unfold Orders.save. destruct (Order.validate o); unfold_monad; auto.
Qed.

Ltac payments_save_facts :=
  match goal with
  | |- context [Payments.save ?env ?id ?p ?s] =>
      let H := fresh "Hord" in
      let H' := fresh "Hout" in
      pose proof (payments_save_orders env id p s) as H;
      pose proof (payments_save_outcome env id p s) as H';
      unfold final in H;
      destruct (Payments.save env id p s) as [[? | ?] ?]; simpl in H, H'
  end.

Lemma createPayment_orders (env : Env) (orderId : ObjectId) (amount : Z) (s : Store) :
  orders (final (PaymentService.createPayment env orderId amount s)) = orders s.
Proof.
  unfold PaymentService.createPayment, Payments.create, Payments.findById, Orders.findById.
  unfold_monad.
  destruct (orders s !! orderId); simpl; [| reflexivity].
  destruct (amount <=? 0); simpl; [reflexivity |].
  destruct (is_set (payments s !! newId env)); simpl; [reflexivity |].
  payments_save_facts; rewrite andb_false_r in Hord; exact Hord.
Qed.

Lemma failPayment_orders (env : Env) (id : ObjectId) (reason : option string) (s : Store) :
  orders (final (PaymentService.failPayment env id reason s)) = orders s.
Proof.
  unfold PaymentService.failPayment, Payments.fail, Payments.findById. unfold_monad.
  destruct (payments s !! id) as [p |]; simpl; [| reflexivity].
  destruct (Payment.status_eqb (Payment.status p) Payment.FAILED); simpl; [reflexivity |].
  payments_save_facts;
    (replace (Payment.status_eqb _ Payment.COMPLETED) with false in Hord
      by (destruct (truthy_opt_str reason); reflexivity));
    rewrite andb_false_r in Hord; exact Hord.
Qed.

Lemma cancelPayment_orders (env : Env) (id : ObjectId) (s : Store) :
  orders (final (PaymentService.cancelPayment env id s)) = orders s.
Proof.
  unfold PaymentService.cancelPayment, Payments.cancel, Payments.findById. unfold_monad.
  destruct (payments s !! id) as [p |]; simpl; [| reflexivity].
  destruct (Payment.status_eqb (Payment.status p) Payment.PENDING); simpl; [| reflexivity].
  payments_save_facts; rewrite andb_false_r in Hord; exact Hord.
Qed.

Lemma retryFailedPayment_orders (env : Env) (id : ObjectId) (s : Store) :
  orders (final (PaymentService.retryFailedPayment env id s)) = orders s.
Proof.
  unfold PaymentService.retryFailedPayment, Payments.findById. unfold_monad.
  destruct (payments s !! id) as [p |]; simpl; [| reflexivity].
  destruct (negb (Payment.status_eqb (Payment.status p) Payment.FAILED)); simpl;
    [reflexivity |].
  payments_save_facts; rewrite andb_false_r in Hord; exact Hord.
Qed.

(** The shape of a completion: it throws and writes nothing, or it returns and
    the parent order's [paidAmount] has gone up by the payment's amount. *)
Lemma completePayment_orders (env : Env) (id : ObjectId)
    (data : PaymentService.CompleteData) (s : Store) :
  match fst (PaymentService.completePayment env id data s) with
  | Return p' =>
      exists p, payments s !! id = Some p /\
        Payment.status p <> Payment.COMPLETED /\
        Payment.amount p' = Payment.amount p /\
        Payment.orderId p' = Payment.orderId p /\
        orders (final (PaymentService.completePayment env id data s)) =
          alter (fun o => Order.set_paidAmount (Order.paidAmount o + Payment.amount p) o)
            (Payment.orderId p) (orders s)
  | Throw _ =>
      orders (final (PaymentService.completePayment env id data s)) = orders s
  end.
Proof.
  unfold PaymentService.completePayment, Payments.complete, Payments.findById. unfold_monad.
  destruct (payments s !! id) as [p |] eqn:Hp; simpl; [| reflexivity].
  destruct (Payment.status_eqb (Payment.status p) Payment.COMPLETED) eqn:Hst; simpl;
    [reflexivity |].
  apply payment_status_eqb_neq in Hst.
  assert (Hfr : forall q, q = PaymentService.assign data p ->
            Payment.amount q = Payment.amount p /\ Payment.orderId q = Payment.orderId p).
  { intros q ->. unfold PaymentService.assign. repeat case_match; simpl; auto. }
  destruct (Hfr _ eq_refl) as (Ha & Ho).
  set (q := PaymentService.assign data p) in *.
  payments_save_facts.
  - destruct (Payment.validate _) eqn:Hv; [| discriminate].
    injection Hout as ->.
    match goal with
    | |- context [Payment.pre_save ?t ?x ?y] =>
        destruct (payment_pre_save_frame t x y) as (_ & Ha' & Ho' & _)
    end.
    exists p. split; [reflexivity |]. split; [exact Hst |].
    rewrite Ha', Ho'.
    destruct (truthy_opt_str (PaymentService.transactionId data)); simpl in *;
      rewrite Ha, Ho in *; auto.
  - destruct (Payment.validate _) eqn:Hv; [discriminate |].
    simpl in Hord. exact Hord.
Qed.

Lemma refundPayment_orders (env : Env) (id : ObjectId) (data : PaymentService.RefundData)
    (s : Store) :
  orders (final (PaymentService.refundPayment env id data s)) = orders s \/
  exists p o,
    payments s !! id = Some p /\ Payment.status p = Payment.COMPLETED /\
    num_or (PaymentService.amount data) (Payment.amount p) <= Payment.amount p /\
    orders s !! Payment.orderId p = Some o /\
    orders (final (PaymentService.refundPayment env id data s)) =
      <[Payment.orderId p :=
          Order.pre_save (now env)
            (Order.set_paidAmount
               (Z.max 0 (Order.paidAmount o
                         - num_or (PaymentService.amount data) (Payment.amount p))) o)]>
        (orders s).
Proof.
  unfold PaymentService.refundPayment, Payments.refund, Payments.findById, Orders.findById.
  unfold_monad.
  destruct (payments s !! id) as [p |] eqn:Hp; simpl; [| auto].
  destruct (Payment.status_eqb (Payment.status p) Payment.COMPLETED) eqn:Hst; simpl;
    [| auto].
  apply payment_status_eqb_eq in Hst. rewrite Hst. simpl.
  destruct (Payment.amount p <? _) eqn:Hlt; simpl; [auto |].
  apply Z.ltb_ge in Hlt.
  rewrite payments_save_quiet by (simpl; discriminate).
  destruct (Payment.validate _); simpl; [| auto].
  match goal with
  | |- context [Payment.pre_save ?t ?x ?y] =>
      destruct (payment_pre_save_frame t x y) as (_ & _ & -> & _)
  end. simpl.
  destruct (orders s !! Payment.orderId p) as [o |] eqn:Ho; simpl; [| auto].
  unfold Orders.save. destruct (Order.validate _); unfold_monad; [| auto].
  right. exists p, o. auto.
Qed.

Lemma assignReviewer_orders (env : Env) (orderId reviewerId : ObjectId) (s : Store) :
  orders (final (OrderService.assignReviewer env orderId reviewerId s)) = orders s \/
  exists o,
    orders s !! orderId = Some o /\ Order.status o = Order.PENDING_REVIEW /\
    activeReviewer s reviewerId = true /\
    orders (final (OrderService.assignReviewer env orderId reviewerId s)) =
      <[orderId :=
          Order.pre_save (now env)
            (Order.set_assignedAt (Some (now env))
               (Order.set_status Order.ASSIGNED
                  (Order.set_reviewerId (Some reviewerId) o)))]> (orders s).
Proof.
  unfold OrderService.assignReviewer, activeReviewer, Orders.findById, Orders.save,
    Notifications.create.
  unfold_monad.
  destruct (users s !! reviewerId) as [r |]; simpl; [| auto].
  destruct (User.isActive r && User.isReviewer r); simpl; [| auto].
  destruct (orders s !! orderId) as [o |] eqn:Ho; simpl; [| auto].
  destruct (Order.canBeAssigned o) eqn:Hc; simpl; [| auto].
  apply order_status_eqb_eq in Hc.
  destruct (Order.validate _); unfold_monad; [| auto].
  right. exists o. auto.
Qed.

Lemma updateOrderStatus_orders (env : Env) (orderId : ObjectId) (st : Order.OrderStatus)
    (s : Store) :
  orders (final (OrderService.updateOrderStatus env orderId st s)) = orders s \/
  exists o,
    orders s !! orderId = Some o /\
    orders (final (OrderService.updateOrderStatus env orderId st s)) =
      <[orderId :=
          Order.pre_save (now env)
            (if Order.status_eqb st Order.COMPLETED
             then Order.set_completedAt (Some (now env)) (Order.set_status st o)
             else Order.set_status st o)]> (orders s).
Proof.
  unfold OrderService.updateOrderStatus, Orders.findById, Orders.save, Notifications.create.
  unfold_monad.
  destruct (orders s !! orderId) as [o |] eqn:Ho; simpl; [| auto].
  destruct (Order.validate _); unfold_monad; [| auto].
  right. exists o. split; [reflexivity |].
  destruct (negb (Order.status_eqb (Order.status o) st)); reflexivity.
Qed.

Lemma cancelOrder_orders (env : Env) (orderId : ObjectId) (s : Store) :
  orders (final (OrderService.cancelOrder env orderId s)) = orders s \/
  exists o,
    orders s !! orderId = Some o /\ Order.status o <> Order.COMPLETED /\
    orders (final (OrderService.cancelOrder env orderId s)) =
      <[orderId := Order.pre_save (now env) (Order.set_status Order.CANCELLED o)]> (orders s).
Proof.
  unfold OrderService.cancelOrder, Orders.findById, Orders.save, Notifications.create.
  unfold_monad.
  destruct (orders s !! orderId) as [o |] eqn:Ho; simpl; [| auto].
  destruct (Order.status_eqb (Order.status o) Order.COMPLETED) eqn:Hst; simpl; [auto |].
  destruct (Order.validate _); unfold_monad; [| auto].
  right. exists o. split; [reflexivity |]. split; [| reflexivity].
  intros Heq. rewrite Heq in Hst. discriminate.
Qed.

(** Every request leaves every order in place, either untouched or rewritten
    as [order_write] describes. *)
Lemma handle_orders (env : Env) (req : Ledger.Request) (s : Store) (orderId : ObjectId)
    (o : Order.IOrder) :
  orders s !! orderId = Some o ->
  exists o',
    orders (Ledger.handle env req s) !! orderId = Some o' /\
    (o' = o \/ order_write env s req orderId o o').
Proof.
  intros Ho. destruct req as [oid a | id data | id r | id data | id | id | oid rid | oid st | oid];
    simpl.
  - rewrite createPayment_orders. eauto.
  - pose proof (completePayment_orders env id data s) as H.
    destruct (fst (PaymentService.completePayment env id data s)).
    + destruct H as (p & Hp & Hst & _ & _ & ->).
      destruct (decide (Payment.orderId p = orderId)) as [<- | Hne].
      * rewrite lookup_alter_eq, Ho. simpl. eexists. split; [reflexivity |].
        right. by constructor.
      * rewrite lookup_alter_ne by done. eauto.
    + rewrite H. eauto.
  - rewrite failPayment_orders. eauto.
  - destruct (refundPayment_orders env id data s) as [-> | (p & o0 & Hp & Hst & Hle & Ho0 & ->)];
      [eauto |].
    destruct (decide (Payment.orderId p = orderId)) as [<- | Hne].
    + rewrite lookup_insert_eq. eexists. split; [reflexivity |].
      right. simplify_eq. by constructor.
    + rewrite lookup_insert_ne by done. eauto.
  - rewrite cancelPayment_orders. eauto.
  - rewrite retryFailedPayment_orders. eauto.
  - destruct (assignReviewer_orders env oid rid s) as [-> | (o0 & Ho0 & Hst & Hr & ->)];
      [eauto |].
    destruct (decide (oid = orderId)) as [<- | Hne].
    + rewrite lookup_insert_eq. eexists. split; [reflexivity |].
      right. simplify_eq. by constructor.
    + rewrite lookup_insert_ne by done. eauto.
  - destruct (updateOrderStatus_orders env oid st s) as [-> | (o0 & Ho0 & ->)]; [eauto |].
    destruct (decide (oid = orderId)) as [<- | Hne].
    + rewrite lookup_insert_eq. eexists. split; [reflexivity |].
      right. simplify_eq. by constructor.
    + rewrite lookup_insert_ne by done. eauto.
  - destruct (cancelOrder_orders env oid s) as [-> | (o0 & Ho0 & Hst & ->)]; [eauto |].
    destruct (decide (oid = orderId)) as [<- | Hne].
    + rewrite lookup_insert_eq. eexists. split; [reflexivity |].
      right. simplify_eq. by constructor.
    + rewrite lookup_insert_ne by done. eauto.
Qed.

(** ** The paid amount of an order *)




(** Over any sequence of requests an order stays in place with its
    [totalAmount], and a sequence of order status requests keeps its
    [paidAmount]. *)
Lemma handle_keeps_totalAmount (env : Env) (req : Ledger.Request) (s : Store)
    (orderId : ObjectId) (o : Order.IOrder) :
  orders s !! orderId = Some o ->
  exists o',
    orders (Ledger.handle env req s) !! orderId = Some o' /\
    Order.totalAmount o' = Order.totalAmount o /\
    (Ledger.isOrderStatusRequest req = true -> Order.paidAmount o' = Order.paidAmount o).
Proof.
  intros Ho.
  destruct (handle_orders env req s orderId o Ho) as (o' & Ho' & [-> | Hw]); [eauto |].
  exists o'. split; [exact Ho' |].
  inversion Hw; subst; simpl;
    repeat match goal with
           | |- context [Order.pre_save ?t ?x] =>
               let H1 := fresh in let H2 := fresh in
               destruct (order_pre_save_frame t x) as (_ & H1 & H2 & _);
               rewrite ?H1, ?H2 in *; clear H1 H2
           end; simpl; try (split; [reflexivity | done]).
  case_match; done.
Qed.

Lemma run_keeps_totalAmount (l : list (Env * Ledger.Request)) :
  forall (s : Store) (orderId : ObjectId) (o : Order.IOrder),
    orders s !! orderId = Some o ->
    exists o',
      orders (Ledger.run l s) !! orderId = Some o' /\
      Order.totalAmount o' = Order.totalAmount o /\
      (forallb (fun er => Ledger.isOrderStatusRequest (snd er)) l = true ->
       Order.paidAmount o' = Order.paidAmount o).
Proof.
  induction l as [| [env req] l IH]; intros s orderId o Ho; simpl.
  - eauto.
  - destruct (handle_keeps_totalAmount env req s orderId o Ho) as (o1 & Ho1 & Ht1 & Hp1).
    destruct (IH _ _ _ Ho1) as (o' & Ho' & Ht' & Hp').
    exists o'. split; [exact Ho' |]. split; [congruence |].
    intros Hall. apply andb_prop in Hall as (Hreq & Hall).
    rewrite Hp' by exact Hall. apply Hp1. exact Hreq.
Qed.



(** ** The consultation lifecycle *)

Lemma consultation_pre_save_existing (t : Date) (c : Consultation.IConsultation) :
  exists c',
    Consultation.pre_save t false c = Some c' /\
    Consultation.status c' = Consultation.status c /\
    Consultation.scheduledDate c' = Consultation.scheduledDate c /\
    Consultation.reminders c' = Consultation.reminders c /\
    Consultation.rescheduleHistory c' = Consultation.rescheduleHistory c.
Proof.
  unfold Consultation.pre_save. simpl. eexists. split; [reflexivity |].
  repeat case_match; simpl; auto.
Qed.

Lemma consultations_save_existing (env : Env) (id : ObjectId)
    (c : Consultation.IConsultation) (s : Store) :
  Consultations.save env false id c s = (Throw ValidationError, s) \/
  exists c',
    Consultation.pre_save (now env) false c = Some c' /\
    Consultations.save env false id c s = (Return c', set_consultations (insert id c') s).
Proof.
  unfold Consultations.save.
  destruct (Consultation.validate (now env) c); [| by left].
  destruct (consultation_pre_save_existing (now env) c) as (c' & Hc' & _).
  right. exists c'. split; [exact Hc' |]. rewrite Hc'. reflexivity.
Qed.

(** One lifecycle operation on a stored consultation: it throws and writes
    nothing, or it returns, rewrites that consultation only, and moves its
    status along a [service_transition]. *)
Lemma perform_shape (env : Env) (id : ObjectId) (op : Lifecycle.Op) (s : Store)
    (c : Consultation.IConsultation) :
  consultations s !! id = Some c ->
  (exists e, Lifecycle.perform env id op s = (Throw e, s)) \/
  (exists c',
     fst (Lifecycle.perform env id op s) = Return c' /\
     consultations (final (Lifecycle.perform env id op s)) = <[id := c']> (consultations s) /\
     Lifecycle.service_transition (Consultation.status c) (Lifecycle.action_of op)
       (Consultation.status c') /\
     (forall d r by_, op = Lifecycle.Reschedule d r by_ ->
        Consultation.scheduledDate c' = d /\
        Consultation.reminders c' = Consultation.mkReminders false false false /\
        Consultation.rescheduleHistory c' =
          (Consultation.rescheduleHistory c
             ++ [Consultation.mkEntry (Consultation.scheduledDate c) r by_ (now env)])%list)).
Proof.
  intros Hc.
  destruct op as [| notes | reason | d r by_]; simpl;
    unfold ConsultationService.startConsultation, ConsultationService.completeConsultation,
      ConsultationService.cancelConsultation, ConsultationService.rescheduleConsultation,
      Consultations.findById, Consultations.start, Consultations.complete,
      Consultations.cancel, Consultations.reschedule, Notifications.insertMany;
    unfold_monad; rewrite Hc; simpl.
  - destruct (Consultation.status c) eqn:Hst; simpl; eauto.
    match goal with
    | |- context [Consultations.save ?e false ?i ?x ?y] =>
        destruct (consultations_save_existing e i x y) as [-> | (c' & Hpre & ->)];
        [eauto |];
        destruct (consultation_pre_save_existing (now e) x) as (c2 & Hpre2 & Hs & _)
    end.
    right. exists c'. simpl. repeat split; try discriminate.
    rewrite Hpre in Hpre2. injection Hpre2 as <-. rewrite Hs. simpl. constructor.
  - destruct (Consultation.status c) eqn:Hst; simpl; eauto.
    match goal with
    | |- context [Consultations.save ?e false ?i ?x ?y] =>
        destruct (consultations_save_existing e i x y) as [-> | (c' & Hpre & ->)];
        [eauto |];
        destruct (consultation_pre_save_existing (now e) x) as (c2 & Hpre2 & Hs & _)
    end.
    right. exists c'. simpl. repeat split; try discriminate.
    rewrite Hpre in Hpre2. injection Hpre2 as <-. rewrite Hs.
    destruct (truthy_opt_str notes); simpl; constructor.
  - assert (Hcancel : forall x, Consultation.status x = Consultation.CANCELLED ->
              forall c2, Consultation.pre_save (now env) false x = Some c2 ->
              Consultation.status c2 = Consultation.CANCELLED).
    { intros x Hx c2 Hc2.
      destruct (consultation_pre_save_existing (now env) x) as (c3 & Hc3 & Hs & _).
      congruence. }
    destruct (Consultation.status c) eqn:Hst; simpl; eauto;
      match goal with
      | |- context [Consultations.save ?e false ?i ?x ?y] =>
          destruct (consultations_save_existing e i x y) as [-> | (c' & Hpre & ->)];
          [eauto |];
          right; exists c'; simpl; repeat split; try discriminate;
          rewrite (Hcancel x); [constructor | | exact Hpre];
          repeat case_match; reflexivity
      end.
  - destruct (Consultation.status c) eqn:Hst; simpl; eauto.
    destruct (d <=? now env); simpl; eauto.
    match goal with
    | |- context [Consultations.save ?e false ?i ?x ?y] =>
        destruct (consultations_save_existing e i x y) as [-> | (c' & Hpre & ->)];
        [eauto |];
        destruct (consultation_pre_save_existing (now e) x)
          as (c2 & Hpre2 & Hs & Hd & Hrem & Hh)
    end.
    rewrite Hpre in Hpre2. injection Hpre2 as <-.
    right. exists c'. simpl. split; [reflexivity |]. split; [reflexivity |].
    split; [rewrite Hs; simpl; constructor |].
    intros d0 r0 by0 Heq. injection Heq as <- <- <-.
    rewrite Hd, Hrem, Hh. simpl. auto.
Qed.





(** * Further properties of the embedded services *)

(** ** The order controller *)

Lemma orders_save_valid (env : Env) (id : ObjectId) (o : Order.IOrder) (s : Store) :
  Order.validate o = true ->
  Orders.save env id o s =
    (Return (Order.pre_save (now env) o),
     set_orders (insert id (Order.pre_save (now env) o)) s).
Proof. intros Hv. unfold Orders.save. rewrite Hv. reflexivity. Qed.



(** X2. [updateOrderStatus] enforces no transition table: on a valid order it
    stores any requested status whatever the current one is, leaves the paid
    amount and the reviewer alone, and notifies the customer exactly when the
    status has changed. *)
Theorem updateOrderStatus_rules (env : Env) (orderId : ObjectId) (st : Order.OrderStatus)
    (s : Store) (o : Order.IOrder) :
  orders s !! orderId = Some o ->
  Order.validate o = true ->
  exists o' s',
    OrderService.updateOrderStatus env orderId st s = (Return o', s') /\
    orders s' = <[orderId := o']> (orders s) /\
    Order.status o' = st /\
    Order.paidAmount o' = Order.paidAmount o /\
    Order.reviewerId o' = Order.reviewerId o /\
    notifications s' =
      (notifications s ++
       if Order.status_eqb (Order.status o) st then []
       else [Notification.mk (Order.customerId o) orderId "Order Status Updated"
               Notification.ORDER_UPDATED])%list.
Proof.
  intros Ho Hv.
  unfold OrderService.updateOrderStatus, Orders.findById, Notifications.create. unfold_monad.
  rewrite Ho. simpl.
  set (o2 := if Order.status_eqb st Order.COMPLETED then _ else _).
  assert (H2 : Order.validate o2 = true /\ Order.status o2 = st /\
               Order.paidAmount o2 = Order.paidAmount o /\
               Order.reviewerId o2 = Order.reviewerId o /\
               Order.customerId o2 = Order.customerId o).
  { subst o2. destruct (Order.status_eqb st Order.COMPLETED); simpl; auto. }
  destruct H2 as (Hv2 & Hs2 & Hp2 & Hr2 & Hc2).
  rewrite orders_save_valid by exact Hv2. simpl.
  destruct (order_pre_save_frame (now env) o2) as (H1 & H3 & _ & H4 & H5).
  destruct (Order.status_eqb (Order.status o) st) eqn:Hsame; simpl;
    eexists _, _; (split; [reflexivity |]); simpl;
    rewrite ?app_nil_r; repeat split; congruence.
Qed.

(** A concrete instance of [updateOrderStatus_rules]: a COMPLETED order is
    put back to PENDING_REVIEW. *)
Lemma updateOrderStatus_rules_witness :
  exists o' s',
    OrderService.updateOrderStatus (env_at 300 "x") "o1" Order.PENDING_REVIEW
      (storeWithOrder (sampleOrder Order.COMPLETED (Some "r1") 350 (Some 100)))
      = (Return o', s') /\
    Order.status o' = Order.PENDING_REVIEW /\
    Order.reviewerId o' = Some "r1".
Proof.
  destruct (updateOrderStatus_rules (env_at 300 "x") "o1" Order.PENDING_REVIEW
              (storeWithOrder (sampleOrder Order.COMPLETED (Some "r1") 350 (Some 100)))
              (sampleOrder Order.COMPLETED (Some "r1") 350 (Some 100)) eq_refl eq_refl)
    as (o' & s' & Hrun & _ & Hst & _ & Hr & _).
  exists o', s'. split; [exact Hrun |]. split; [exact Hst | exact Hr].
Defined.





(** ** The payment ledger, continued *)

Lemma payments_save_payments (env : Env) (id : ObjectId) (p : Payment.IPayment) (s : Store) :
  payments (final (Payments.save env id p s)) =
    if Payment.validate p
    then <[id := Payment.pre_save (now env) ("txn_" ++ token env) p]> (payments s)
    else payments s.
Proof.
  unfold Payments.save.
  destruct (Payment.validate p); simpl; [| reflexivity].
  unfold Payments.post_save, Orders.findByIdAndUpdate, Orders.findById, Notifications.create.
  run_monad; reflexivity.
Qed.

Lemma payments_save_throws (env : Env) (id : ObjectId) (p : Payment.IPayment) (s : Store)
    (e : Error) :
  fst (Payments.save env id p s) = Throw e -> Payments.save env id p s = (Throw e, s).
Proof.
  intros H. pose proof (payments_save_outcome env id p s) as Ho.
  rewrite H in Ho.
  unfold Payments.save. destruct (Payment.validate p); [discriminate |].
  injection Ho as ->. reflexivity.
Qed.



Ltac unfold_bind :=
  unfold bind, ret, throw, gets, modify, orThrow, when in *; simpl in *.


Lemma num_or_absorb (a : option Z) (d : Z) :
  (if truthy_num (num_or a d) then num_or a d else d) = num_or a d.
Proof. exact (num_or_idem a d). Qed.

(** What one ledger operation does to the stored payment: nothing, or a save
    whose status follows the operation's guard. *)
Lemma payment_perform_shape (env : Env) (id : ObjectId) (op : PaymentLifecycle.Op)
    (s : Store) (p : Payment.IPayment) :
  payments s !! id = Some p ->
  payments (final (PaymentLifecycle.perform env id op s)) = payments s \/
  exists p',
    payments (final (PaymentLifecycle.perform env id op s)) = <[id := p']> (payments s) /\
    PaymentLifecycle.transition (Payment.status p) (PaymentLifecycle.action_of op)
      (Payment.status p') /\
    Payment.amount p' = Payment.amount p /\
    Payment.orderId p' = Payment.orderId p.
Proof.
  intros Hp.
  destruct op as [data | reason | data | |]; simpl;
    unfold PaymentService.completePayment, PaymentService.failPayment,
      PaymentService.refundPayment, PaymentService.cancelPayment,
      PaymentService.retryFailedPayment, Payments.findById,
      Payments.complete, Payments.fail, Payments.refund, Payments.cancel;
    unfold_bind; rewrite Hp; simpl.
  - destruct (Payment.status_eqb (Payment.status p) Payment.COMPLETED) eqn:Hst; simpl;
      [by left |].
    apply payment_status_eqb_neq in Hst.
    rewrite payments_save_payments.
    destruct (Payment.validate _); [| by left].
    right. eexists. split; [reflexivity |].
    match goal with
    | |- context [Payment.pre_save ?t ?x ?y] =>
        destruct (payment_pre_save_frame t x y) as (-> & -> & -> & _)
    end.
    unfold PaymentService.assign.
    repeat case_match; simpl; repeat split; try by constructor.
  - destruct (Payment.status_eqb (Payment.status p) Payment.FAILED) eqn:Hst; simpl;
      [by left |].
    apply payment_status_eqb_neq in Hst.
    rewrite payments_save_payments.
    destruct (Payment.validate _); [| by left].
    right. eexists. split; [reflexivity |].
    match goal with
    | |- context [Payment.pre_save ?t ?x ?y] =>
        destruct (payment_pre_save_frame t x y) as (-> & -> & -> & _)
    end.
    repeat case_match; simpl; repeat split; try by constructor.
  - destruct (Payment.status_eqb (Payment.status p) Payment.COMPLETED) eqn:Hst; simpl;
      [| by left].
    apply payment_status_eqb_eq in Hst. rewrite Hst. simpl.
    destruct (Payment.amount p <? _); simpl; [by left |].
    rewrite payments_save_quiet by (simpl; discriminate).
    rewrite !num_or_absorb.
    destruct (Payment.validate _); simpl; [| by left].
    right. eexists. split.
    + unfold Orders.findById, Orders.save, Notifications.create. unfold final.
      run_monad; reflexivity.
    + match goal with
      | |- context [Payment.pre_save ?t ?x ?y] =>
          destruct (payment_pre_save_frame t x y) as (-> & -> & -> & _)
      end.
      simpl. repeat split. constructor.
  - destruct (Payment.status_eqb (Payment.status p) Payment.PENDING) eqn:Hst; simpl;
      [| by left].
    apply payment_status_eqb_eq in Hst.
    rewrite payments_save_payments.
    destruct (Payment.validate _); [| by left].
    right. eexists. split; [reflexivity |].
    match goal with
    | |- context [Payment.pre_save ?t ?x ?y] =>
        destruct (payment_pre_save_frame t x y) as (-> & -> & -> & _)
    end.
    simpl. rewrite Hst. repeat split. constructor.
  - destruct (Payment.status_eqb (Payment.status p) Payment.FAILED) eqn:Hst; simpl;
      [| by left].
    apply payment_status_eqb_eq in Hst.
    rewrite payments_save_payments.
    destruct (Payment.validate _); [| by left].
    right. eexists. split; [reflexivity |].
    match goal with
    | |- context [Payment.pre_save ?t ?x ?y] =>
        destruct (payment_pre_save_frame t x y) as (-> & -> & -> & _)
    end.
    simpl. rewrite Hst. repeat split. constructor.
Qed.

Lemma moves_sample (st st' : Payment.PaymentStatus) (op : PaymentLifecycle.Op) :
  st <> st' ->
  Payment.status <$>
    (payments (final (PaymentLifecycle.perform (env_at 5000 "x") "p1" op
                        (storeWithPayment (sampleOrder Order.ASSIGNED (Some "r1") 100 None)
                           (samplePayment st 100)))) !! "p1") = Some st' ->
  PaymentLifecycle.moves st (PaymentLifecycle.action_of op) st'.
Proof.
  intros Hne Hl.
  destruct (payments _ !! "p1") as [p' |] eqn:Hp'; [| discriminate].
  injection Hl as Hl.
  exists (env_at 5000 "x"), "p1", op,
    (storeWithPayment (sampleOrder Order.ASSIGNED (Some "r1") 100 None) (samplePayment st 100)),
    (samplePayment st 100), p'.
  repeat split; auto.
Qed.

(** X5. The stored status of a payment changes through the five ledger
    operations exactly as their guards allow: to COMPLETED from every other
    status (also from REFUNDED, CANCELLED and FAILED), to FAILED from every
    other status (also from COMPLETED and REFUNDED), to REFUNDED only from
    COMPLETED, to CANCELLED only from PENDING, and back to PENDING only from
    FAILED. *)
Theorem payment_status_moves (st : Payment.PaymentStatus) (a : PaymentLifecycle.Action)
    (st' : Payment.PaymentStatus) :
  PaymentLifecycle.moves st a st' <-> PaymentLifecycle.transition st a st'.
Proof.
  split.
  - intros (env & id & op & s & p & p' & <- & Hp & <- & Hp' & <- & Hne).
    destruct (payment_perform_shape env id op s p Hp) as [Heq | (q & Heq & Ht & _)].
    + rewrite Heq, Hp in Hp'. injection Hp' as <-. contradiction.
    + rewrite Heq, lookup_insert_eq in Hp'. injection Hp' as <-. exact Ht.
  - intros Ht. inversion Ht; subst.
    + apply (moves_sample _ _ (PaymentLifecycle.Complete
                                 (PaymentService.mkCompleteData None None))); [done |].
      destruct st; try contradiction; vm_compute; reflexivity.
    + apply (moves_sample _ _ (PaymentLifecycle.Fail None)); [done |].
      destruct st; try contradiction; vm_compute; reflexivity.
    + apply (moves_sample _ _ (PaymentLifecycle.Refund
                                 (PaymentService.mkRefundData None None None)));
        [discriminate | vm_compute; reflexivity].
    + apply (moves_sample _ _ PaymentLifecycle.Cancel);
        [discriminate | vm_compute; reflexivity].
    + apply (moves_sample _ _ PaymentLifecycle.Retry);
        [discriminate | vm_compute; reflexivity].
Qed.

Lemma completePayment_return (env : Env) (id : ObjectId)
    (data : PaymentService.CompleteData) (s s' : Store) (p' : Payment.IPayment) :
  PaymentService.completePayment env id data s = (Return p', s') ->
  exists p,
    payments s !! id = Some p /\ Payment.status p <> Payment.COMPLETED /\
    payments s' = <[id := p']> (payments s) /\
    Payment.status p' = Payment.COMPLETED /\
    0 < Payment.amount p' /\
    Payment.amount p' = Payment.amount p /\
    Payment.orderId p' = Payment.orderId p.
Proof.
  unfold PaymentService.completePayment, Payments.findById, Payments.complete. unfold_bind.
  destruct (payments s !! id) as [p |] eqn:Hp; simpl; [| discriminate].
  destruct (Payment.status_eqb (Payment.status p) Payment.COMPLETED) eqn:Hst; simpl;
    [discriminate |].
  apply payment_status_eqb_neq in Hst.
  intros Hrun. exists p. split; [reflexivity |]. split; [exact Hst |].
  match type of Hrun with
  | Payments.save ?e ?i ?q ?x = _ =>
      pose proof (payments_save_payments e i q x) as Hpay;
      pose proof (payments_save_outcome e i q x) as Hout;
      rewrite Hrun in Hpay, Hout; simpl in Hpay, Hout;
      destruct (Payment.validate q) eqn:Hv; [| discriminate];
      injection Hout as ->;
      destruct (payment_pre_save_frame (now e) ("txn_" ++ token e) q) as (Hs & Ha & Ho & _);
      assert (Hq : Payment.status q = Payment.COMPLETED /\
                   Payment.amount q = Payment.amount p /\
                   Payment.orderId q = Payment.orderId p /\
                   0 < Payment.amount q)
  end.
  { unfold Payment.validate in Hv.
    repeat (apply andb_prop in Hv as (Hv & ?)).
    split; [| split; [| split]]; [| | | lia];
      unfold PaymentService.assign; repeat case_match; reflexivity. }
  destruct Hq as (Hqs & Hqa & Hqo & Hpos).
  split; [exact Hpay |]. repeat split; congruence.
Qed.











(** ** Invariants of request sequences *)

Lemma handle_paidAmount_nonneg (env : Env) (req : Ledger.Request) (s : Store)
    (orderId : ObjectId) (o : Order.IOrder) :
  orders s !! orderId = Some o -> 0 <= Order.paidAmount o ->
  exists o', orders (Ledger.handle env req s) !! orderId = Some o' /\
             0 <= Order.paidAmount o'.
Proof.
  intros Ho Hpaid.
  destruct (handle_orders env req s orderId o Ho) as (o' & Ho' & [-> | Hw]); [eauto |].
  exists o'. split; [exact Ho' |].
  inversion Hw; subst; simpl in *;
    repeat match goal with
           | |- context [Order.pre_save ?t ?x] =>
               let H1 := fresh in
               destruct (order_pre_save_frame t x) as (_ & H1 & _);
               rewrite ?H1 in *; clear H1
           end; simpl; try lia.
  - (* completion: the payment was saved, hence its amount is positive *)
    pose proof (completePayment_orders env id data s) as Hc.
    pose proof (completePayment_return env id data s) as Hret.
    unfold final in *.
    destruct (PaymentService.completePayment env id data s) as [[p' | e] s'];
      simpl in Hc, Ho'.
    + destruct (Hret s' p' eq_refl) as (p0 & Hp0 & _ & _ & _ & Hpos & Ha & _).
      assert (p0 = p) by congruence. subst p0. lia.
    + rewrite Hc, Ho in Ho'. injection Ho' as Heq.
      apply (f_equal Order.paidAmount) in Heq. simpl in Heq. lia.
  - case_match; simpl; lia.
Qed.

(** X10. [paidAmount] never becomes negative: along every sequence of ledger
    and order-controller requests, an order whose paid amount is not negative
    keeps a paid amount that is not negative (a completion only adds the
    amount of a payment that passed validation, a refund floors at 0). *)
Theorem paidAmount_never_negative (l : list (Env * Ledger.Request)) :
  forall (s : Store) (orderId : ObjectId) (o : Order.IOrder),
    orders s !! orderId = Some o -> 0 <= Order.paidAmount o ->
    exists o', orders (Ledger.run l s) !! orderId = Some o' /\
               0 <= Order.paidAmount o'.
Proof.
  induction l as [| [env req] l IH]; intros s orderId o Ho Hpaid; simpl.
  - eauto.
  - destruct (handle_paidAmount_nonneg env req s orderId o Ho Hpaid) as (o1 & Ho1 & Hp1).
    exact (IH _ _ _ Ho1 Hp1).
Qed.

(** A concrete instance of [paidAmount_never_negative]: a refund of 100 on an
    order whose paid amount is 40. *)
Lemma paidAmount_never_negative_witness :
  exists o',
    orders (Ledger.run
              [(env_at 9000 "x",
                Ledger.RefundPayment "p1" (PaymentService.mkRefundData None None None))]
              (storeWithPayment (sampleOrder Order.ASSIGNED (Some "r1") 40 None)
                 (samplePayment Payment.COMPLETED 100))) !! "o1" = Some o' /\
    0 <= Order.paidAmount o'.
Proof.
  apply (paidAmount_never_negative
           [(env_at 9000 "x",
             Ledger.RefundPayment "p1" (PaymentService.mkRefundData None None None))]
           (storeWithPayment (sampleOrder Order.ASSIGNED (Some "r1") 40 None)
              (samplePayment Payment.COMPLETED 100))
           "o1" (sampleOrder Order.ASSIGNED (Some "r1") 40 None) eq_refl).
  simpl. lia.
Defined.





(** ** Consultation scheduling, continued *)




(** X14. The slot rule of the booking route: for the customer who owns the
    order and a fresh id, the booking is created exactly when no SCHEDULED or
    IN_PROGRESS consultation of that reviewer starts at exactly the requested
    time.  Neither the clock, nor the duration, nor the intervals the
    reviewer's consultations cover play a part. *)
Theorem booking_route_decision (env : Env) (userId : ObjectId)
    (body : ConsultationRoute.BookingBody) (s : Store) (o : Order.IOrder) :
  orders s !! ConsultationRoute.orderId body = Some o ->
  Order.customerId o = userId ->
  consultations s !! newId env = None ->
  ((exists c' s', ConsultationRoute.POST env (Some userId) body s = (Return c', s')) <->
   (forall k c, consultations s !! k = Some c ->
      Consultation.reviewerId c = ConsultationRoute.reviewerId body ->
      ConsultationRoute.isActiveStatus (Consultation.status c) = true ->
      Consultation.scheduledDate c <> ConsultationRoute.scheduledDate body)).
Proof.
  intros Ho Hcust Hfresh. split.
  - intros (c' & s' & Hrun) k c Hc Hr Hact Hsame.
    destruct (booking_same_start_rejected env userId body s o k c Ho Hcust Hc Hr Hsame Hact)
      as (Hthrow & _).
    rewrite Hthrow in Hrun. discriminate.
  - intros Hfree.
    destruct (booking_accepted_without_same_start env userId body s o Ho Hcust Hfresh Hfree)
      as (c' & s' & Hrun & _).
    eauto.
Qed.

(** A concrete instance of [booking_route_decision]. *)
Lemma booking_route_decision_witness :
  (exists c' s',
     ConsultationRoute.POST (env_at clock0 "k2") (Some "c1") overlappingBody
       (storeWithConsultation (sampleConsultation Consultation.SCHEDULED slotT))
     = (Return c', s')) <->
  (forall k c,
     consultations (storeWithConsultation (sampleConsultation Consultation.SCHEDULED slotT))
       !! k = Some c ->
     Consultation.reviewerId c = ConsultationRoute.reviewerId overlappingBody ->
     ConsultationRoute.isActiveStatus (Consultation.status c) = true ->
     Consultation.scheduledDate c <> ConsultationRoute.scheduledDate overlappingBody).
Proof.
  apply (booking_route_decision (env_at clock0 "k2") "c1" overlappingBody
           (storeWithConsultation (sampleConsultation Consultation.SCHEDULED slotT))
           (sampleOrder Order.ASSIGNED (Some "r1") 0 None)); reflexivity.
Defined.

Lemma consultation_pre_save_fields (t : Date) (c c' : Consultation.IConsultation) :
  Consultation.pre_save t false c = Some c' ->
  Consultation.status c' = Consultation.status c /\
  Consultation.notes c' = Consultation.notes c /\
  Consultation.customerId c' = Consultation.customerId c /\
  Consultation.reviewerId c' = Consultation.reviewerId c /\
  Consultation.orderId c' = Consultation.orderId c /\
  Consultation.reminders c' = Consultation.reminders c /\
  (forall a, Consultation.actualStartTime c = Some a ->
             Consultation.actualStartTime c' = Some a) /\
  (forall b, Consultation.actualEndTime c = Some b ->
             Consultation.actualEndTime c' = Some b).
Proof.
  unfold Consultation.pre_save. simpl. intros [= <-].
  repeat case_match; simpl; repeat split; auto;
    intros ? Heq; simpl in *; try congruence;
    match goal with
    | H : _ && negb (is_set ?x) = true |- _ => rewrite Heq in H; simpl in H;
        rewrite andb_false_r in H; discriminate
    end.
Qed.

(** X15. When a consultation is started and then completed, the stored
    consultation is COMPLETED, its actual start time is the clock of the
    start and its actual end time the clock of the completion.  From then on
    every lifecycle operation on it throws and writes nothing. *)
Theorem start_then_complete (env1 env2 : Env) (id : ObjectId) (notes : option string)
    (s s1 s2 : Store) (c1 c2 : Consultation.IConsultation) :
  ConsultationService.startConsultation env1 id s = (Return c1, s1) ->
  ConsultationService.completeConsultation env2 id notes s1 = (Return c2, s2) ->
  consultations s2 !! id = Some c2 /\
  Consultation.status c2 = Consultation.COMPLETED /\
  Consultation.actualStartTime c2 = Some (now env1) /\
  Consultation.actualEndTime c2 = Some (now env2) /\
  forall env op, exists e, Lifecycle.perform env id op s2 = (Throw e, s2).
Proof.
  intros Hstart Hcomplete.
  assert (H1 : consultations s1 !! id = Some c1 /\
               Consultation.actualStartTime c1 = Some (now env1)).
  { revert Hstart.
    unfold ConsultationService.startConsultation, Consultations.findById, Consultations.start.
    unfold_bind.
    destruct (consultations s !! id) as [c |]; simpl; [| discriminate].
    destruct (negb _); simpl; [discriminate |].
    match goal with
    | |- context [Consultations.save ?e false ?i ?x ?y] =>
        destruct (consultations_save_existing e i x y) as [-> | (c' & Hpre & ->)];
        [discriminate |];
        destruct (consultation_pre_save_fields _ _ _ Hpre) as (_ & _ & _ & _ & _ & _ & Ha & _)
    end.
    intros [= <- <-]. simpl. split; [apply lookup_insert_eq | apply Ha; reflexivity]. }
  destruct H1 as (Hl1 & Ha1).
  assert (H2 : consultations s2 !! id = Some c2 /\
               Consultation.status c2 = Consultation.COMPLETED /\
               Consultation.actualStartTime c2 = Some (now env1) /\
               Consultation.actualEndTime c2 = Some (now env2)).
  { revert Hcomplete.
    unfold ConsultationService.completeConsultation, Consultations.findById,
      Consultations.complete.
    unfold_bind. rewrite Hl1. simpl.
    destruct (negb _); simpl; [discriminate |].
    match goal with
    | |- context [Consultations.save ?e false ?i ?x ?y] =>
        destruct (consultations_save_existing e i x y) as [-> | (c' & Hpre & ->)];
        [discriminate |];
        destruct (consultation_pre_save_fields _ _ _ Hpre)
          as (Hs & _ & _ & _ & _ & _ & Ha & Hb)
    end.
    intros [= <- <-]. simpl. split; [apply lookup_insert_eq |].
    split; [rewrite Hs; repeat case_match; reflexivity |].
    split; [apply Ha | apply Hb]; repeat case_match; simpl; auto. }
  destruct H2 as (Hl2 & Hs2 & Ha2 & Hb2).
  repeat split; auto.
  intros env op.
  destruct (perform_shape env id op s2 c2 Hl2) as [He | (c3 & _ & _ & Ht & _)];
    [exact He |].
  rewrite Hs2 in Ht. inversion Ht.
Qed.

(** A concrete instance of [start_then_complete]. *)
Lemma start_then_complete_witness :
  exists c1 s1 c2 s2,
    ConsultationService.startConsultation (env_at clock0 "x") "k1"
      (storeWithConsultation (sampleConsultation Consultation.SCHEDULED slotT))
      = (Return c1, s1) /\
    ConsultationService.completeConsultation (env_at (clock0 + minutes 45) "y") "k1"
      (Some "follow up in two weeks") s1 = (Return c2, s2) /\
    Consultation.status c2 = Consultation.COMPLETED /\
    Consultation.actualStartTime c2 = Some clock0 /\
    Consultation.actualEndTime c2 = Some (clock0 + minutes 45).
Proof.
  destruct (ConsultationService.startConsultation (env_at clock0 "x") "k1"
              (storeWithConsultation (sampleConsultation Consultation.SCHEDULED slotT)))
    as [[c1 | e] s1] eqn:E1; [| vm_compute in E1; discriminate].
  destruct (ConsultationService.completeConsultation (env_at (clock0 + minutes 45) "y") "k1"
              (Some "follow up in two weeks") s1)
    as [[c2 | e] s2] eqn:E2;
    [| vm_compute in E1; injection E1 as <- <-; vm_compute in E2; discriminate].
  exists c1, s1, c2, s2. split; [reflexivity |]. split; [exact E2 |].
  destruct (start_then_complete _ _ _ _ _ _ _ _ _ E1 E2) as (_ & Hs & Ha & Hb & _).
  repeat split; assumption.
Defined.

(** ** Reminders *)

Lemma reminderField_leadTime (ty : ConsultationReminders.ReminderType) :
  ConsultationReminders.reminderField (ConsultationReminders.leadTime ty) = Some ty.
Proof. destruct ty; reflexivity. Qed.

Lemma findForReminders_elem (env : Env) (t : Z) (s : Store) (id : ObjectId)
    (c : Consultation.IConsultation) :
  In (id, c) (ConsultationReminders.findForReminders env t s) <->
  exists ty,
    ConsultationReminders.reminderField t = Some ty /\
    consultations s !! id = Some c /\
    now env + minutes t - 5 * 60000 <= Consultation.scheduledDate c /\
    Consultation.scheduledDate c <= now env + minutes t + 5 * 60000 /\
    Consultation.status c = Consultation.SCHEDULED /\
    ConsultationReminders.sent ty (Consultation.reminders c) = false.
Proof.
  unfold ConsultationReminders.findForReminders.
  destruct (ConsultationReminders.reminderField t) as [ty |]; simpl.
  - rewrite filter_In, <- list_elem_of_In, elem_of_map_to_list. simpl.
    rewrite !andb_true_iff, !Z.leb_le, consultation_status_eqb_eq, negb_true_iff.
    split.
    + intros (Hl & ((H1 & H2) & H3) & H4). exists ty. repeat split; auto.
    + intros (ty' & [= <-] & Hl & H1 & H2 & H3 & H4). repeat split; auto.
  - split; [intros [] | intros (ty & [=] & _)].
Qed.

(** X16. When [sendReminder] returns, the reminder flag of the given type is
    set on the stored consultation and the other two flags, the status and
    the scheduled date are as before; both participants get one reminder
    notification; and at no later clock does [findForReminders] list the
    consultation again for that lead time. *)
Theorem sendReminder_marks_sent (env : Env) (id : ObjectId)
    (ty : ConsultationReminders.ReminderType) (s s' : Store) (b : bool) :
  ConsultationReminders.sendReminder env id ty s = (Return b, s') ->
  exists c c',
    consultations s !! id = Some c /\
    consultations s' !! id = Some c' /\
    ConsultationReminders.sent ty (Consultation.reminders c') = true /\
    (forall ty', ty' <> ty ->
       ConsultationReminders.sent ty' (Consultation.reminders c')
       = ConsultationReminders.sent ty' (Consultation.reminders c)) /\
    Consultation.status c' = Consultation.status c /\
    Consultation.scheduledDate c' = Consultation.scheduledDate c /\
    notifications s' =
      (notifications s
       ++ [Notification.mk (Consultation.customerId c) (Consultation.orderId c)
             "Consultation Reminder" Notification.REMINDER;
           Notification.mk (Consultation.reviewerId c) (Consultation.orderId c)
             "Consultation Reminder" Notification.REMINDER])%list /\
    forall env' x,
      ~ In (id, x) (ConsultationReminders.findForReminders env'
                      (ConsultationReminders.leadTime ty) s').
Proof.
  unfold ConsultationReminders.sendReminder, ConsultationReminders.setReminder,
    Consultations.findById, Notifications.insertMany.
  unfold_bind.
  destruct (consultations s !! id) as [c |] eqn:Hc; simpl; [| discriminate].
  destruct (users s !! Consultation.customerId c); [| discriminate].
  destruct (users s !! Consultation.reviewerId c); [| discriminate].
  match goal with
  | |- context [Consultations.save ?e false ?i ?x ?y] =>
      destruct (consultations_save_existing e i x y) as [-> | (c' & Hpre & ->)];
      [discriminate |];
      destruct (consultation_pre_save_fields _ _ _ Hpre)
        as (Hs & _ & Hcu & Hre & Hor & Hrem & _);
      destruct (consultation_pre_save_existing (now e) x) as (c2 & Hpre2 & _ & Hd & _)
  end.
  rewrite Hpre in Hpre2. injection Hpre2 as <-.
  intros [= <- <-]. exists c, c'. simpl in *.
  assert (Hl : <[id := c']> (consultations s) !! id = Some c') by apply lookup_insert_eq.
  assert (Hsent : ConsultationReminders.sent ty (Consultation.reminders c') = true)
    by (rewrite Hrem; destruct ty; reflexivity).
  split; [reflexivity |]. split; [exact Hl |]. split; [exact Hsent |].
  split; [intros ty' Hne; rewrite Hrem; destruct ty, ty'; simpl; congruence |].
  split; [exact Hs |]. split; [exact Hd |].
  split; [rewrite Hcu, Hre, Hor; reflexivity |].
  intros env' x Hin. apply findForReminders_elem in Hin.
  destruct Hin as (ty' & Hf & Hx & _ & _ & _ & Hno).
  rewrite reminderField_leadTime in Hf. injection Hf as <-.
  simpl in Hx. rewrite Hl in Hx. injection Hx as <-. congruence.
Qed.

(** A concrete instance of [sendReminder_marks_sent]: the fifteen-minute
    reminder of a consultation whose other two reminders were sent. *)
Lemma sendReminder_marks_sent_witness :
  exists s',
    ConsultationReminders.sendReminder (env_at (slotT - minutes 15) "x") "k1"
      ConsultationReminders.R15min
      (storeWithConsultation (sampleConsultation Consultation.SCHEDULED slotT))
      = (Return true, s') /\
    In "k1" (List.map fst
               (ConsultationReminders.findForReminders (env_at (slotT - minutes 15) "x") 15
                  (storeWithConsultation (sampleConsultation Consultation.SCHEDULED slotT)))) /\
    forall env' x, ~ In ("k1", x) (ConsultationReminders.findForReminders env' 15 s').
Proof.
  eexists. split; [vm_compute; reflexivity |]. split; [vm_compute; auto |].
  intros env' x.
  match goal with
  | |- context [ConsultationReminders.findForReminders _ _ ?s'] =>
      assert (E : ConsultationReminders.sendReminder (env_at (slotT - minutes 15) "x") "k1"
                    ConsultationReminders.R15min
                    (storeWithConsultation (sampleConsultation Consultation.SCHEDULED slotT))
                  = (Return true, s')) by (vm_compute; reflexivity)
  end.
  destruct (sendReminder_marks_sent _ _ _ _ _ _ E) as (c & c' & _ & _ & _ & _ & _ & _ & _ & H).
  exact (H env' x).
Defined.



(** ** Documents: upload, delete, restore *)

Ltac unfold_result :=
  unfold fbind, lift, ok, fail in *; unfold_bind.

Lemma documents_save_outcome (env : Env) (id : ObjectId) (d : Document.IDocument)
    (s : Store) :
  (Document.validate d = true /\
   Documents.save env id d s = (Return d, set_documents (insert id d) s)) \/
  (Document.validate d = false /\
   exists e, Documents.save env id d s = (Throw e, s)).
Proof.
  unfold Documents.save, Document.pre_save_ok.
  destruct (Document.validate d) eqn:Hv; [left | right; eauto].
  split; [reflexivity |].
  unfold Document.validate in Hv.
  apply andb_prop in Hv as (Hv & _). apply andb_prop in Hv as (_ & Hhi).
  replace (Document.maxFileSize <? Document.fileSize d) with false by (symmetry; lia).
  reflexivity.
Qed.

Lemma document_validate_isActive (b : bool) (d : Document.IDocument) :
  Document.validate (DocumentLifecycle.set_isActive b d) = Document.validate d.
Proof. reflexivity. Qed.


Lemma uploadDocument_outcome (env : Env) (data : DocumentLifecycle.UploadData) (s : Store) :
  (exists f, DocumentLifecycle.uploadDocument env data s = (Fail f, s)) \/
  (exists order uploader,
     orders s !! DocumentLifecycle.orderId data = Some order /\
     users s !! DocumentLifecycle.uploadedBy data = Some uploader /\
     documents s !! newId env = None /\
     Document.validate (DocumentLifecycle.newDocument data) = true /\
     DocumentLifecycle.uploadDocument env data s =
       (Ok (DocumentLifecycle.newDocument data),
        add_notifications
          (List.map (fun userId =>
                       Notification.mk userId (DocumentLifecycle.orderId data)
                         "Document Uploaded" Notification.DOCUMENT_UPLOADED)
                    (DocumentLifecycle.recipients order data))
          (set_documents (insert (newId env) (DocumentLifecycle.newDocument data)) s))).
Proof.
  unfold DocumentLifecycle.uploadDocument, DocumentLifecycle.create, Orders.findById,
    Notifications.insertMany.
  unfold_result.
  destruct (orders s !! DocumentLifecycle.orderId data) as [order |] eqn:Ho; [| eauto].
  destruct (users s !! DocumentLifecycle.uploadedBy data) as [uploader |] eqn:Hu;
    simpl; [| eauto].
  destruct (Document.maxFileSize <? DocumentLifecycle.fileSize data) eqn:Hsz; [eauto |].
  destruct (documents s !! newId env) eqn:Hd; simpl; [eauto |].
  destruct (documents_save_outcome env (newId env) (DocumentLifecycle.newDocument data) s)
    as [(Hv & ->) | (Hv & e & ->)]; [| eauto].
  right. exists order, uploader. repeat split; auto.
Qed.



Lemma downloadDocument_active (env : Env) (id userId : ObjectId) (s s' : Store)
    (d : Document.IDocument) (path : string) :
  DocumentService.downloadDocument env id userId s = (Return (d, path), s') ->
  Document.isActive d = true.
Proof.
  unfold DocumentService.downloadDocument, Orders.findById, Documents.incrementDownloadCount,
    Documents.save.
  unfold_bind.
  destruct (documents s !! id) as [d0 |]; simpl; [| discriminate].
  destruct (Document.isActive d0) eqn:Hact; simpl; [| discriminate].
  repeat (case_match; simpl; try discriminate); simplify_eq; intros [= <- _ _]; exact Hact.
Qed.

(** X19. Upload then download: after a successful upload, the order's
    customer downloads the new document, provided the file is on disk; the
    download returns the uploaded path and the stored download count is 1. *)
Theorem upload_then_download (env env' : Env) (data : DocumentLifecycle.UploadData)
    (s s1 : Store) (d : Document.IDocument) (order : Order.IOrder) :
  DocumentLifecycle.uploadDocument env data s = (Ok d, s1) ->
  orders s !! DocumentLifecycle.orderId data = Some order ->
  fs_access env' (DocumentLifecycle.filePath data) = true ->
  exists d' s2,
    DocumentService.downloadDocument env' (newId env) (Order.customerId order) s1
      = (Return (d', DocumentLifecycle.filePath data), s2) /\
    documents s2 !! newId env = Some d' /\
    Document.downloadCount d' = 1 /\
    Document.isActive d' = true.
Proof.
  intros Hup Ho Hfs.
  destruct (uploadDocument_outcome env data s)
    as [(f & Hf) | (order' & uploader & Ho' & Hu & Hnew & Hv & Hok)];
    [rewrite Hup in Hf; discriminate |].
  rewrite Hup in Hok. injection Hok as -> ->.
  rewrite Ho in Ho'. injection Ho' as <-.
  set (s1 := add_notifications _ _).
  assert (Hd1 : documents s1 !! newId env = Some (DocumentLifecycle.newDocument data))
    by apply lookup_insert_eq.
  destruct (downloadDocument_rules env' (newId env) (Order.customerId order) s1
              (DocumentLifecycle.newDocument data) order Hd1 eq_refl Ho) as (_ & H).
  destruct (H (or_introl eq_refl) Hfs Hv) as (d' & Hrun & Hcount).
  exists d'. eexists. split; [exact Hrun |]. simpl.
  split; [apply lookup_insert_eq |]. split; [exact Hcount |].
  exact (downloadDocument_active _ _ _ _ _ _ _ Hrun).
Qed.

(** A concrete instance of [upload_then_download]. *)
Lemma upload_then_download_witness :
  exists d s1 d' s2,
    DocumentLifecycle.uploadDocument (env_at clock0 "d9")
      (DocumentLifecycle.mkUpload "o1" "/uploads/report.pdf" 2048 "r1")
      (storeWithOrder (sampleOrder Order.ASSIGNED (Some "r1") 0 None)) = (Ok d, s1) /\
    DocumentService.downloadDocument (env_at (clock0 + 1) "x") "d9" "c1" s1
      = (Return (d', "/uploads/report.pdf"), s2) /\
    Document.downloadCount d' = 1.
Proof.
  destruct (DocumentLifecycle.uploadDocument (env_at clock0 "d9")
              (DocumentLifecycle.mkUpload "o1" "/uploads/report.pdf" 2048 "r1")
              (storeWithOrder (sampleOrder Order.ASSIGNED (Some "r1") 0 None)))
    as [[d | f] s1] eqn:E; [| vm_compute in E; discriminate].
  destruct (upload_then_download (env_at clock0 "d9") (env_at (clock0 + 1) "x") _ _ _ _
              (sampleOrder Order.ASSIGNED (Some "r1") 0 None) E)
    as (d' & s2 & Hrun & _ & Hcount & _); [reflexivity | reflexivity |].
  exists d, s1, d', s2. split; [reflexivity |]. split; [exact Hrun | exact Hcount].
Defined.

Lemma deleteDocument_outcome (env : Env) (id userId : ObjectId) (s : Store)
    (d : Document.IDocument) (o : Order.IOrder) :
  documents s !! id = Some d ->
  orders s !! Document.orderId d = Some o ->
  (deleteDenied d o userId /\
   DocumentLifecycle.deleteDocument env id userId s = (Fail UnauthorizedDelete, s)) \/
  (~ deleteDenied d o userId /\ Document.validate d = false /\
   exists e, DocumentLifecycle.deleteDocument env id userId s = (Fail (Known e), s)) \/
  (~ deleteDenied d o userId /\ Document.validate d = true /\
   DocumentLifecycle.deleteDocument env id userId s =
     (Ok true, set_documents (insert id (DocumentLifecycle.set_isActive false d)) s)).
Proof.
  intros Hd Ho.
  assert (Hden : {deleteDenied d o userId} + {~ deleteDenied d o userId}).
  { unfold deleteDenied.
    destruct (String.eqb_spec (Document.uploadedBy d) userId) as [Eu | Eu];
      [right; intros (? & _); contradiction |].
    destruct (String.eqb_spec (Order.customerId o) userId) as [Ec | Ec];
      [right; intros (_ & ? & _); contradiction |].
    destruct (Order.reviewerId o) as [r |];
      [| right; intros (_ & _ & r & [=] & _)].
    destruct (String.eqb_spec r userId) as [Er | Er];
      [right; intros (_ & _ & r' & [= <-] & ?); contradiction |].
    left. eauto. }
  assert (Hrun : DocumentLifecycle.deleteDocument env id userId s =
            if negb (String.eqb (Document.uploadedBy d) userId)
               && negb (String.eqb (Order.customerId o) userId)
               && match Order.reviewerId o with
                  | Some r => negb (String.eqb r userId)
                  | None => false
                  end
            then (Fail UnauthorizedDelete, s)
            else match Documents.save env id (DocumentLifecycle.set_isActive false d) s with
                 | (Return _, s') => (Ok true, s')
                 | (Throw e, s') => (Fail (Known e), s')
                 end).
  { unfold DocumentLifecycle.deleteDocument, DocumentLifecycle.softDelete, Orders.findById.
    unfold fbind, lift, ok, fail, bind, gets. rewrite Hd, Ho.
    destruct (negb (String.eqb (Document.uploadedBy d) userId)); simpl;
      [| destruct (Documents.save _ _ _ _) as [[? | ?] ?]; reflexivity].
    destruct (negb (String.eqb (Order.customerId o) userId)
              && match Order.reviewerId o with
                 | Some r => negb (String.eqb r userId)
                 | None => false
                 end); simpl;
      [reflexivity | destruct (Documents.save _ _ _ _) as [[? | ?] ?]; reflexivity]. }
  rewrite Hrun.
  assert (Hb : negb (String.eqb (Document.uploadedBy d) userId)
               && negb (String.eqb (Order.customerId o) userId)
               && match Order.reviewerId o with
                  | Some r => negb (String.eqb r userId)
                  | None => false
                  end = true <-> deleteDenied d o userId).
  { unfold deleteDenied. rewrite !andb_true_iff, !negb_true_iff, !String.eqb_neq.
    destruct (Order.reviewerId o) as [r |].
    - rewrite negb_true_iff, String.eqb_neq. split.
      + intros ((? & ?) & ?). eauto.
      + intros (? & ? & r' & [= <-] & ?). auto.
    - split; [intros (_ & [=]) | intros (_ & _ & r & [=] & _)]. }
  destruct Hden as [Hyes | Hno].
  - left. split; [exact Hyes |]. apply Hb in Hyes. rewrite Hyes. reflexivity.
  - right.
    destruct (_ && _ && _) eqn:E; [exfalso; apply Hno, Hb; reflexivity |].
    destruct (documents_save_outcome env id (DocumentLifecycle.set_isActive false d) s)
      as [(Hv & ->) | (Hv & e & ->)]; rewrite document_validate_isActive in Hv; eauto.
Qed.



(** X21. Who may delete a document.  For a stored document whose order is
    stored, [deleteDocument] answers 'Unauthorized to delete this document'
    exactly when the caller is not the uploader, not the order's customer and
    the order has a reviewer other than the caller; so while the order has no
    reviewer, no caller is refused as unauthorized. *)
Theorem deleteDocument_permission (env : Env) (id userId : ObjectId) (s : Store)
    (d : Document.IDocument) (o : Order.IOrder) :
  documents s !! id = Some d ->
  orders s !! Document.orderId d = Some o ->
  (fst (DocumentLifecycle.deleteDocument env id userId s) = Fail UnauthorizedDelete <->
   Document.uploadedBy d <> userId /\
   Order.customerId o <> userId /\
   exists r, Order.reviewerId o = Some r /\ r <> userId) /\
  (Order.reviewerId o = None ->
   fst (DocumentLifecycle.deleteDocument env id userId s) <> Fail UnauthorizedDelete).
Proof.
  intros Hd Ho.
  assert (Hiff : fst (DocumentLifecycle.deleteDocument env id userId s)
                 = Fail UnauthorizedDelete <-> deleteDenied d o userId).
  { destruct (deleteDocument_outcome env id userId s d o Hd Ho)
      as [(Hden & H) | [(Hden & _ & e & H) | (Hden & _ & H)]]; rewrite H; simpl;
      split; auto; try discriminate; intros; contradiction. }
  split; [exact Hiff |].
  intros Hnone Hfail. apply Hiff in Hfail.
  destruct Hfail as (_ & _ & r & Hr & _). congruence.
Qed.

(** A concrete instance of [deleteDocument_permission]: a stranger deletes a
    document of an order that has no reviewer yet. *)
Lemma deleteDocument_permission_witness :
  DocumentLifecycle.deleteDocument (env_at clock0 "x") "d1" "u3"
    (storeWithDocument (sampleOrder Order.PENDING_REVIEW None 0 None) sampleDocument)
  = (Ok true,
     set_documents (insert "d1" (DocumentLifecycle.set_isActive false sampleDocument))
       (storeWithDocument (sampleOrder Order.PENDING_REVIEW None 0 None) sampleDocument))
  /\ fst (DocumentLifecycle.deleteDocument (env_at clock0 "x") "d1" "u3"
            (storeWithDocument (sampleOrder Order.PENDING_REVIEW None 0 None) sampleDocument))
     <> Fail UnauthorizedDelete.
Proof.
  split; [vm_compute; reflexivity |].
  apply (deleteDocument_permission (env_at clock0 "x") "d1" "u3"
           (storeWithDocument (sampleOrder Order.PENDING_REVIEW None 0 None) sampleDocument)
           sampleDocument (sampleOrder Order.PENDING_REVIEW None 0 None));
    reflexivity.
Defined.

(** ** Orders and reviews: creation, completion, deletion *)



Lemma createReview_outcome (env : Env) (data : ReviewLifecycle.ReviewData) (s : Store) :
  (exists f,
     ReviewLifecycle.createReview env data s = (Fail f, s) /\
     (forall order, orders s !! ReviewLifecycle.orderId data = Some order ->
        Order.reviewerId order <> Some (ReviewLifecycle.reviewerId data) ->
        f = ReviewerNotAssigned)) \/
  (exists order u,
     orders s !! ReviewLifecycle.orderId data = Some order /\
     Order.reviewerId order = Some (ReviewLifecycle.reviewerId data) /\
     users s !! ReviewLifecycle.reviewerId data = Some u /\
     User.isReviewer u = true /\
     reviews s !! newId env = None /\
     ReviewLifecycle.createReview env data s =
       (Ok (Review.mk (ReviewLifecycle.orderId data) (ReviewLifecycle.reviewerId data) false),
        add_notifications
          [Notification.mk (Order.customerId order) (ReviewLifecycle.orderId data)
             "Review Available" Notification.REVIEW_COMPLETED]
          (set_reviews
             (insert (newId env)
                (Review.mk (ReviewLifecycle.orderId data) (ReviewLifecycle.reviewerId data)
                   false)) s))).
Proof.
  unfold ReviewLifecycle.createReview, Orders.findById, Reviews.findById, Reviews.save,
    Reviews.post_save, Notifications.create.
  unfold fbind, lift, ok, fail, bind, gets, modify, ret, throw, when.
  destruct (orders s !! ReviewLifecycle.orderId data) as [order |] eqn:Ho; simpl;
    [| left; eexists; split; [reflexivity | discriminate]].
  destruct (Order.reviewerId order) as [r |] eqn:Hr; simpl;
    [| left; eexists; split; [reflexivity | reflexivity]].
  destruct (String.eqb_spec r (ReviewLifecycle.reviewerId data)) as [-> | Hne]; simpl;
    [| left; eexists; split; [reflexivity | reflexivity]].
  destruct (users s !! ReviewLifecycle.reviewerId data) as [u |] eqn:Hu; simpl;
    [| left; eexists; split; [reflexivity | intros ? [= <-]; congruence]].
  destruct (User.isReviewer u) eqn:Hrole; simpl;
    [| left; eexists; split; [reflexivity | intros ? [= <-]; congruence]].
  destruct (reviews s !! newId env) eqn:Hnew; simpl;
    [left; eexists; split; [reflexivity | intros ? [= <-]; congruence] |].
  right. exists order, u. repeat split; auto.
Qed.

Lemma completeReview_run (env : Env) (id : ObjectId) (s : Store) (r : Review.IReview) :
  reviews s !! id = Some r -> Review.isComplete r = false ->
  ReviewService.completeReview env id s =
    (Return (Review.set_isComplete true r),
     set_orders (alter (fun o => Order.set_completedAt (Some (now env))
                                   (Order.set_status Order.COMPLETED o))
                   (Review.orderId r))
       (set_reviews (insert id (Review.set_isComplete true r)) s)).
Proof.
  intros Hr Hc.
  unfold ReviewService.completeReview, Reviews.findById, Reviews.save, Reviews.post_save,
    Orders.findByIdAndUpdate.
  unfold bind, gets, orThrow, modify, ret, throw, when. rewrite Hr. simpl. rewrite Hc.
  reflexivity.
Qed.

(** X22. [createReview] is all or nothing and is open to the assigned
    reviewer only.  When it fails the store is unchanged, and it fails with
    'Reviewer is not assigned to this order' whenever the order's reviewer is
    not the given one.  When it returns, the given reviewer is the order's
    reviewer and has role REVIEWER, one review is added and it is not
    complete, the orders are untouched, and the order's customer gets one
    'Review Available' notification. *)
Theorem createReview_rules (env : Env) (data : ReviewLifecycle.ReviewData) (s : Store) :
  (forall f s', ReviewLifecycle.createReview env data s = (Fail f, s') -> s' = s) /\
  (forall order,
     orders s !! ReviewLifecycle.orderId data = Some order ->
     Order.reviewerId order <> Some (ReviewLifecycle.reviewerId data) ->
     ReviewLifecycle.createReview env data s = (Fail ReviewerNotAssigned, s)) /\
  (forall r s',
     ReviewLifecycle.createReview env data s = (Ok r, s') ->
     exists order u,
       orders s !! ReviewLifecycle.orderId data = Some order /\
       Order.reviewerId order = Some (ReviewLifecycle.reviewerId data) /\
       users s !! ReviewLifecycle.reviewerId data = Some u /\
       User.isReviewer u = true /\
       Review.isComplete r = false /\
       Review.orderId r = ReviewLifecycle.orderId data /\
       Review.reviewerId r = ReviewLifecycle.reviewerId data /\
       reviews s !! newId env = None /\
       reviews s' = <[newId env := r]> (reviews s) /\
       orders s' = orders s /\
       notifications s' =
         (notifications s
          ++ [Notification.mk (Order.customerId order) (ReviewLifecycle.orderId data)
                "Review Available" Notification.REVIEW_COMPLETED])%list).
Proof.
  destruct (createReview_outcome env data s)
    as [(f & Hf & Hna) | (order & u & Ho & Hr & Hu & Hrole & Hnew & Hok)].
  - split; [intros f' s'; rewrite Hf; by intros [= _ <-] |].
    split; [intros order Ho Hne; rewrite Hf, (Hna order Ho Hne); reflexivity |].
    intros r s'. rewrite Hf. discriminate.
  - split; [intros f' s'; rewrite Hok; discriminate |].
    split; [intros order' Ho' Hne; congruence |].
    intros r s'. rewrite Hok. intros [= <- <-].
    exists order, u. simpl. repeat split; auto.
Qed.

(** A concrete instance of [createReview_rules]: the assigned reviewer
    creates the review, another user is refused. *)
Lemma createReview_rules_witness :
  (exists r s',
     ReviewLifecycle.createReview (env_at clock0 "v9") (ReviewLifecycle.mkReviewData "o1" "r1")
       (storeWithOrder (sampleOrder Order.ASSIGNED (Some "r1") 0 None)) = (Ok r, s') /\
     Review.isComplete r = false /\
     orders s' = orders (storeWithOrder (sampleOrder Order.ASSIGNED (Some "r1") 0 None))) /\
  ReviewLifecycle.createReview (env_at clock0 "v9") (ReviewLifecycle.mkReviewData "o1" "u3")
    (storeWithOrder (sampleOrder Order.ASSIGNED (Some "r1") 0 None))
  = (Fail ReviewerNotAssigned,
     storeWithOrder (sampleOrder Order.ASSIGNED (Some "r1") 0 None)).
Proof.
  split.
  - destruct (ReviewLifecycle.createReview (env_at clock0 "v9")
                (ReviewLifecycle.mkReviewData "o1" "r1")
                (storeWithOrder (sampleOrder Order.ASSIGNED (Some "r1") 0 None)))
      as [[r | f] s'] eqn:E; [| vm_compute in E; discriminate].
    destruct (createReview_rules (env_at clock0 "v9") (ReviewLifecycle.mkReviewData "o1" "r1")
                (storeWithOrder (sampleOrder Order.ASSIGNED (Some "r1") 0 None)))
      as (_ & _ & H).
    destruct (H r s' E) as (order & u & _ & _ & _ & _ & Hc & _ & _ & _ & _ & Hord & _).
    exists r, s'. auto.
  - apply (createReview_rules (env_at clock0 "v9") (ReviewLifecycle.mkReviewData "o1" "u3")
             (storeWithOrder (sampleOrder Order.ASSIGNED (Some "r1") 0 None)))
      with (order := sampleOrder Order.ASSIGNED (Some "r1") 0 None);
      [reflexivity | discriminate].
Defined.

(** X23. [deleteReview] removes a review only while it is not complete.
    When it returns, the review was stored and not complete, it is gone from
    the store, and orders are untouched.  Once [completeReview] has returned
    for a review, [deleteReview] on it answers 'Cannot delete completed
    review' and writes nothing. *)
Theorem deleteReview_rules (id : ObjectId) (s : Store) :
  (forall b s',
     ReviewLifecycle.deleteReview id s = (Ok b, s') ->
     exists r,
       reviews s !! id = Some r /\ Review.isComplete r = false /\
       reviews s' = delete id (reviews s) /\
       reviews s' !! id = None /\
       orders s' = orders s) /\
  (forall f s', ReviewLifecycle.deleteReview id s = (Fail f, s') -> s' = s) /\
  (forall env r' s',
     ReviewService.completeReview env id s = (Return r', s') ->
     ReviewLifecycle.deleteReview id s' = (Fail CannotDeleteCompletedReview, s')).
Proof.
  unfold ReviewLifecycle.deleteReview, Reviews.findById.
  unfold fbind, lift, ok, fail, bind, gets, modify.
  split; [| split].
  - intros b s'.
    destruct (reviews s !! id) as [r |] eqn:Hr; simpl; [| discriminate].
    destruct (Review.isComplete r) eqn:Hc; simpl; [discriminate |].
    intros [= <- <-]. exists r. simpl. repeat split; auto. apply lookup_delete_eq.
  - intros f s'.
    destruct (reviews s !! id) as [r |] eqn:Hr; simpl; [| by intros [= _ <-]].
    destruct (Review.isComplete r) eqn:Hc; simpl; [by intros [= _ <-] | discriminate].
  - intros env r' s' Hdone.
    destruct (reviews s !! id) as [r |] eqn:Hr; cycle 1.
    { revert Hdone. unfold ReviewService.completeReview, Reviews.findById.
      unfold bind, gets, orThrow, throw. rewrite Hr. discriminate. }
    destruct (Review.isComplete r) eqn:Hc.
    { revert Hdone. unfold ReviewService.completeReview, Reviews.findById.
      unfold bind, gets, orThrow, throw, ret. rewrite Hr. simpl. rewrite Hc. discriminate. }
    rewrite (completeReview_run env id s r Hr Hc) in Hdone.
    injection Hdone as <- <-. simpl. rewrite lookup_insert_eq. reflexivity.
Qed.

(** A concrete instance of [deleteReview_rules]. *)
Lemma deleteReview_rules_witness :
  (exists s',
     ReviewLifecycle.deleteReview "v1"
       (storeWithReview (sampleOrder Order.ASSIGNED (Some "r1") 0 None)
          (Review.mk "o1" "r1" false)) = (Ok true, s') /\
     reviews s' !! "v1" = None) /\
  (exists r' s',
     ReviewService.completeReview (env_at clock0 "x") "v1"
       (storeWithReview (sampleOrder Order.ASSIGNED (Some "r1") 0 None)
          (Review.mk "o1" "r1" false)) = (Return r', s') /\
     ReviewLifecycle.deleteReview "v1" s' = (Fail CannotDeleteCompletedReview, s')).
Proof.
  destruct (deleteReview_rules "v1"
              (storeWithReview (sampleOrder Order.ASSIGNED (Some "r1") 0 None)
                 (Review.mk "o1" "r1" false))) as (Hdel & _ & Hkeep).
  split.
  - eexists. split; [vm_compute; reflexivity |].
    match goal with
    | |- reviews ?s' !! _ = None =>
        destruct (Hdel true s') as (r & _ & _ & _ & Hgone & _);
        [vm_compute; reflexivity | exact Hgone]
    end.
  - eexists _, _. split; [vm_compute; reflexivity |].
    eapply (Hkeep (env_at clock0 "x")). vm_compute. reflexivity.
Defined.






(** ** Verification tokens *)






